(** * The witness lifecycle controller of gastown

    A shallow embedding of [internal/witness/types.go] and
    [internal/witness/manager.go]: the persisted [Witness] record, the state
    store ([loadState], [saveState]), the process probe ([processExists]),
    the lifecycle operations ([Status], [Start], [Stop]) and the monitoring
    loop ([run], [healthCheck]); and of [internal/version/stale.go]: the
    commit helpers ([ShortCommit], [commitsMatch], [resolveCommitHash]), the
    staleness check ([CheckStaleBinary]) and the search for the source
    checkout ([GetRepoRoot]).

    The Go code works on the file system, the process table, the clock and
    standard output.  The file system entry of the state file, the lines
    printed and the signals sent are kept in a [World] that every operation
    threads through; what the operating system answers to one call (the
    clock reading, the caller's pid, the answers of the probe, whether the
    directory and the file can be written) is an [Env] the operation reads. *)

From Stdlib Require Import ZArith String List Bool Lia.
Import ListNotations.
Local Open Scope string_scope.
Local Open Scope Z_scope.

(** ** Go's [int] *)

Module GoInt.

(** [int] is 64 bits wide on the platforms gastown builds for. *)
Definition min : Z := - 2 ^ 63.
Definition max : Z := 2 ^ 63 - 1.

Definition in_range (z : Z) : Prop := min <= z <= max.

(** Two's complement wrap-around of arithmetic on [int]. *)
Definition wrap (z : Z) : Z := (z + 2 ^ 63) mod 2 ^ 64 - 2 ^ 63.

(** [x++] *)
Definition incr (x : Z) : Z := wrap (x + 1).

End GoInt.

(** ** types.go *)

(** [type State string] with its three constants.  The record field below
    keeps the name [State]; the type goes by [WitnessState]. *)
Definition WitnessState : Type := string.

Definition StateStopped : WitnessState := "stopped".
Definition StateRunning : WitnessState := "running".
Definition StatePaused : WitnessState := "paused".

(** A [time.Time] is kept as the instant it denotes (nanoseconds on the time
    line); [t1 <= t2] reads "t1 is not later than t2". *)
Definition Time : Type := Z.

Record WitnessStats : Type := mkStats {
  TotalChecks : Z;
  TotalNudges : Z;
  TotalEscalations : Z;
  TodayChecks : Z;
  TodayNudges : Z
}.

Record Witness : Type := mkWitness {
  RigName : string;
  State : WitnessState;
  PID : Z;
  StartedAt : option Time;             (* [*time.Time], nil = None *)
  MonitoredPolecats : list string;
  LastCheckAt : option Time;
  Stats : WitnessStats
}.

Definition zeroStats : WitnessStats := mkStats 0 0 0 0 0.

(** Assignments to the fields of [*w]. *)
Definition set_State (v : WitnessState) (w : Witness) : Witness :=
  mkWitness (RigName w) v (PID w) (StartedAt w) (MonitoredPolecats w)
            (LastCheckAt w) (Stats w).
Definition set_PID (v : Z) (w : Witness) : Witness :=
  mkWitness (RigName w) (State w) v (StartedAt w) (MonitoredPolecats w)
            (LastCheckAt w) (Stats w).
Definition set_StartedAt (v : option Time) (w : Witness) : Witness :=
  mkWitness (RigName w) (State w) (PID w) v (MonitoredPolecats w)
            (LastCheckAt w) (Stats w).
Definition set_MonitoredPolecats (v : list string) (w : Witness) : Witness :=
  mkWitness (RigName w) (State w) (PID w) (StartedAt w) v
            (LastCheckAt w) (Stats w).
Definition set_LastCheckAt (v : option Time) (w : Witness) : Witness :=
  mkWitness (RigName w) (State w) (PID w) (StartedAt w) (MonitoredPolecats w)
            v (Stats w).
Definition set_Stats (v : WitnessStats) (w : Witness) : Witness :=
  mkWitness (RigName w) (State w) (PID w) (StartedAt w) (MonitoredPolecats w)
            (LastCheckAt w) v.

(** [w.Stats.TotalChecks++] and [w.Stats.TodayChecks++] *)
Definition incr_TotalChecks (s : WitnessStats) : WitnessStats :=
  mkStats (GoInt.incr (TotalChecks s)) (TotalNudges s) (TotalEscalations s)
          (TodayChecks s) (TodayNudges s).
Definition incr_TodayChecks (s : WitnessStats) : WitnessStats :=
  mkStats (TotalChecks s) (TotalNudges s) (TotalEscalations s)
          (GoInt.incr (TodayChecks s)) (TodayNudges s).

(** ** The rig and the manager *)

Record Rig : Type := mkRig {
  Name : string;
  Path : string;
  Polecats : list string
}.

Record Manager : Type := mkManager {
  rig : Rig;
  workDir : string
}.

Definition NewManager (r : Rig) : Manager := mkManager r (Path r).

(** ** Errors *)

Inductive error : Type :=
| ErrNotRunning
| ErrAlreadyRunning
| SysError (msg : string).             (* an error of [os] or [encoding/json] *)

Definition Error (e : error) : string :=
  match e with
  | ErrNotRunning => "witness not running"
  | ErrAlreadyRunning => "witness already running"
  | SysError msg => msg
  end.

(** ** The world *)

(** What the bytes of the state file are to [json.Unmarshal]: a document that
    decodes to a record, or one that is rejected.  The layout of the JSON
    text is not modelled. *)
Inductive Document : Type :=
| Encoded (w : Witness)
| Malformed (e : error).

(** What [os.ReadFile(m.stateFile())] finds. *)
Inductive Entry : Type :=
| NotExist
| Unreadable (e : error)
| Data (d : Document).

Record World : Type := mkWorld {
  dir_present : bool;                  (* [<rig>/.gastown] is a directory *)
  state_file : Entry;                  (* [<rig>/.gastown/witness.json] *)
  stdout : list string;                (* lines printed, oldest first *)
  interrupts : list Z                  (* pids sent [os.Interrupt], oldest first *)
}.

Definition set_dir (b : bool) (s : World) : World :=
  mkWorld b (state_file s) (stdout s) (interrupts s).
Definition set_file (f : Entry) (s : World) : World :=
  mkWorld (dir_present s) f (stdout s) (interrupts s).
Definition print (line : string) (s : World) : World :=
  mkWorld (dir_present s) (state_file s) (stdout s ++ [line]) (interrupts s).
Definition interrupt (pid : Z) (s : World) : World :=
  mkWorld (dir_present s) (state_file s) (stdout s) (interrupts s ++ [pid]).

(** How an [os.WriteFile] ends.  The file is opened with [O_TRUNC]: a write
    that fails after the open leaves a cut-off file behind. *)
Inductive WriteOutcome : Type :=
| WriteOk
| WriteFailsIntact (e : error)
| WriteFailsTruncated (e : error).

(** An [os.Signal]; the nil interface value is [None]. *)
Inductive Signal : Type :=
| Interrupt
| Kill.

(** The operating system's answers during one operation. *)
Record Env : Type := mkEnv {
  time_Now : Time;                     (* [time.Now()] *)
  os_Getpid : Z;                       (* [os.Getpid()] *)
  os_FindProcess : Z -> bool;          (* [os.FindProcess(pid)] gives no error *)
  syscall_Kill : Z -> Signal -> bool;  (* [syscall.Kill(pid, sig)] gives no error *)
  os_MkdirAll : option error;          (* [os.MkdirAll(dir, 0755)] *)
  os_WriteFile : WriteOutcome
}.

(** ** manager.go: the state store *)

Definition json_Unmarshal (d : Document) : error + Witness :=
  match d with
  | Encoded w => inr w
  | Malformed e => inl e
  end.

(** Encoding a [Witness] does not fail: its fields are strings, ints, a
    string slice and times read from the clock or from a decoded file. *)
Definition json_MarshalIndent (w : Witness) : error + Document :=
  inr (Encoded w).

Definition unexpected_end : error := SysError "unexpected end of JSON input".

Definition loadState (m : Manager) (s : World) : error + Witness :=
  match state_file s with
  | NotExist =>
      inr (mkWitness (Name (rig m)) StateStopped 0 None [] None zeroStats)
  | Unreadable e => inl e
  | Data d =>
      match json_Unmarshal d with
      | inl e => inl e
      | inr w => inr w
      end
  end.

Definition saveState (env : Env) (m : Manager) (w : Witness) (s : World)
  : option error * World :=
  match os_MkdirAll env with
  | Some e => (Some e, s)
  | None =>
      let s := set_dir true s in
      match json_MarshalIndent w with
      | inl e => (Some e, s)
      | inr data =>
          match os_WriteFile env with
          | WriteOk => (None, set_file (Data data) s)
          | WriteFailsIntact e => (Some e, s)
          | WriteFailsTruncated e =>
              (Some e, set_file (Data (Malformed unexpected_end)) s)
          end
      end
  end.

(** ** manager.go: the process probe *)

(** The method [Signal] of [os.Process], of Go's [os] package and not of the
    repository:
    the signal has to be a [syscall.Signal]; any other value, the nil
    interface among them, is refused with "os: unsupported signal type"
    before a system call is made. *)
Definition proc_Signal (env : Env) (pid : Z) (sig : option Signal) : bool :=
  match sig with
  | None => false
  | Some sig => syscall_Kill env pid sig
  end.

(** [os.FindProcess(pid)] followed by [proc.Signal(nil)]. *)

Definition processExists (env : Env) (pid : Z) : bool :=
  if os_FindProcess env pid then proc_Signal env pid None else false.

(** ** manager.go: the lifecycle controller *)

Definition is_running (w : Witness) : bool := String.eqb (State w) StateRunning.

Definition Status (env : Env) (m : Manager) (s : World)
  : (error + Witness) * World :=
  match loadState m s with
  | inl e => (inl e, s)
  | inr w =>
      let '(w, s) :=
        if is_running w && (0 <? PID w) then
          if negb (processExists env (PID w)) then
            let w := set_PID 0 (set_State StateStopped w) in
            let '(_, s) := saveState env m w s in
            (w, s)
          else (w, s)
        else (w, s) in
      (inr (set_MonitoredPolecats (Polecats (rig m)) w), s)
  end.

(** What a call that may block has done so far: it has returned, or it is
    still inside the monitoring loop, waiting for the ticker with [w] in
    hand. *)
Inductive Outcome : Type :=
| Returned (err : option error)
| Blocked (w : Witness).

(** ** manager.go: the monitoring loop *)

Definition nl : string := String (Ascii.ascii_of_nat 10) EmptyString.

(** [healthCheck] updates [*w] in place, so the caller sees the new record
    whether or not the save went through: the record is handed back next to
    the error. *)
Definition healthCheck (env : Env) (m : Manager) (w : Witness) (s : World)
  : Witness * option error * World :=
  let now := time_Now env in
  let w := set_LastCheckAt (Some now) w in
  let w := set_Stats (incr_TotalChecks (Stats w)) w in
  let w := set_Stats (incr_TodayChecks (Stats w)) w in
  let '(err, s) := saveState env m w s in
  (w, err, s).

(** One pass through the body of a [for] loop either goes round again or
    leaves the function. *)
Inductive Step : Type :=
| Continue (w : Witness)
| Return (err : option error).

(** The body of the [for { select { case <-ticker.C: ... } }] of [run], for
    one value received from the ticker. *)
Definition run_body (m : Manager) (env : Env) (w : Witness) (s : World)
  : Step * World :=
  let '(w, err, s) := healthCheck env m w s in
  match err with
  | Some e => (Continue w, print ("Health check error: " ++ Error e ++ nl) s)
  | None => (Continue w, s)
  end.

(** A [for] loop fed with the ticks the ticker has delivered so far; each
    tick comes with the operating system's answers at that moment. *)
Fixpoint for_select (body : Env -> Witness -> World -> Step * World)
  (ticks : list Env) (w : Witness) (s : World) : Outcome * World :=
  match ticks with
  | [] => (Blocked w, s)
  | env :: ticks =>
      match body env w s with
      | (Continue w, s) => for_select body ticks w s
      | (Return err, s) => (Returned err, s)
      end
  end.

Definition run (m : Manager) (w : Witness) (ticks : list Env) (s : World)
  : Outcome * World :=
  let s := print ("Witness running..." ++ nl) s in
  let s := print ("Press Ctrl+C to stop" ++ nl) s in
  for_select (run_body m) ticks w s.

(** ** manager.go: Start and Stop *)

Definition Start (env : Env) (m : Manager) (foreground : bool)
  (ticks : list Env) (s : World) : Outcome * World :=
  match loadState m s with
  | inl e => (Returned (Some e), s)
  | inr w =>
      if is_running w && (0 <? PID w) && processExists env (PID w) then
        (Returned (Some ErrAlreadyRunning), s)
      else
        let now := time_Now env in
        let w := set_State StateRunning w in
        let w := set_StartedAt (Some now) w in
        let w := set_PID (os_Getpid env) w in
        let w := set_MonitoredPolecats (Polecats (rig m)) w in
        match saveState env m w s with
        | (Some e, s) => (Returned (Some e), s)
        | (None, s) =>
            if foreground then run m w ticks s else (Returned None, s)
        end
  end.

Definition Stop (env : Env) (m : Manager) (s : World) : option error * World :=
  match loadState m s with
  | inl e => (Some e, s)
  | inr w =>
      if negb (is_running w) then (Some ErrNotRunning, s)
      else
        let s :=
          if (0 <? PID w) && negb (PID w =? os_Getpid env) then
            if os_FindProcess env (PID w) then interrupt (PID w) s else s
          else s in
        let w := set_PID 0 (set_State StateStopped w) in
        saveState env m w s
  end.

(** ** Sample data *)

Module Sample.

Definition gastown : Rig := mkRig "gastown" "/town/gastown" ["Toast"; "Nux"].
Definition m : Manager := NewManager gastown.

(** A host on which only process 4242 takes signals, the caller is
    process 4242, and the disk takes every write. *)
Definition env (now : Time) : Env :=
  mkEnv now 4242 (fun _ => true) (fun pid _ => pid =? 4242) None WriteOk.

(** The same host with a disk that refuses the write. *)
Definition env_full (now : Time) : Env :=
  mkEnv now 4242 (fun _ => true) (fun pid _ => pid =? 4242) None
        (WriteFailsIntact (SysError "no space left on device")).

Definition fresh : World := mkWorld false NotExist [] [].

Definition on_disk (w : Witness) : World := mkWorld true (Data (Encoded w)) [] [].

Definition running (pid : Z) : Witness :=
  mkWitness "gastown" StateRunning pid (Some 1000) ["Rictus"] (Some 1500)
            (mkStats 7 0 0 3 0).

Definition stopped : Witness :=
  mkWitness "gastown" StateStopped 0 (Some 1000) ["Rictus"] (Some 1500)
            (mkStats 7 0 0 3 0).

End Sample.

(** ** Vocabulary of the properties *)

(** The record the state file holds, when it holds one. *)
Definition persisted (s : World) : option Witness :=
  match state_file s with
  | Data (Encoded w) => Some w
  | _ => None
  end.

(** A [saveState] under [env] goes through: [os.MkdirAll] and
    [os.WriteFile] both succeed. *)
Definition saves (env : Env) : bool :=
  match os_MkdirAll env, os_WriteFile env with
  | None, WriteOk => true
  | _, _ => false
  end.

(** The world a successful [saveState] of [w] leaves. *)
Definition saved (w : Witness) (s : World) : World :=
  set_file (Data (Encoded w)) (set_dir true s).

(** The record [Status] and [Stop] write back. *)
Definition stopped_of (w : Witness) : Witness :=
  set_PID 0 (set_State StateStopped w).

(** The record [Start] writes. *)
Definition started_of (env : Env) (m : Manager) (w : Witness) : Witness :=
  mkWitness (RigName w) StateRunning (os_Getpid env) (Some (time_Now env))
            (Polecats (rig m)) (LastCheckAt w) (Stats w).

(** The record one health check leaves in memory. *)
Definition checked (now : Time) (w : Witness) : Witness :=
  mkWitness (RigName w) (State w) (PID w) (StartedAt w) (MonitoredPolecats w)
            (Some now)
            (mkStats (GoInt.incr (TotalChecks (Stats w)))
                     (TotalNudges (Stats w))
                     (TotalEscalations (Stats w))
                     (GoInt.incr (TodayChecks (Stats w)))
                     (TodayNudges (Stats w))).

(** The record the loop holds after the given ticks. *)
Definition checked_all (ticks : list Env) (w : Witness) : Witness :=
  fold_left (fun w env => checked (time_Now env) w) ticks w.

(** The line [run] prints for a failed health check. *)
Definition report (e : error) : string :=
  "Health check error: " ++ Error e ++ nl.

(** Counter by counter comparison of two statistics blocks. *)
Definition stats_le (a b : WitnessStats) : Prop :=
  TotalChecks a <= TotalChecks b /\
  TotalNudges a <= TotalNudges b /\
  TotalEscalations a <= TotalEscalations b /\
  TodayChecks a <= TodayChecks b /\
  TodayNudges a <= TodayNudges b.

(** [k] more checks counted, without wrap-around. *)
Definition more_checks (k : Z) (a : WitnessStats) : WitnessStats :=
  mkStats (TotalChecks a + k) (TotalNudges a) (TotalEscalations a)
          (TodayChecks a + k) (TodayNudges a).

(** The counters can take [n] more checks before [int] overflows. *)
Definition room_for (n : Z) (a : WitnessStats) : Prop :=
  GoInt.min <= TotalChecks a /\ TotalChecks a + n <= GoInt.max /\
  GoInt.min <= TodayChecks a /\ TodayChecks a + n <= GoInt.max.

(** The record on disk, if there is one, has the counters of [w0] with
    between [lo] and [hi] more checks counted. *)
Definition within (w0 : Witness) (lo hi : Z) (s : World) : Prop :=
  forall w1, persisted s = Some w1 ->
    exists k, lo <= k <= hi /\ Stats w1 = more_checks k (Stats w0).

(** The invocations of the controller.  A foreground start is observed
    after the ticks its loop has served so far. *)
Inductive Op : Type :=
| OpStatus
| OpStart (foreground : bool) (ticks : list Env)
| OpStop.

Definition exec (m : Manager) (env : Env) (op : Op) (s : World) : World :=
  match op with
  | OpStatus => snd (Status env m s)
  | OpStart foreground ticks => snd (Start env m foreground ticks s)
  | OpStop => snd (Stop env m s)
  end.

(** The claims about self-healing, about a tick and about the counters, as
    the specification words them. *)

(** [status()] on a Running record returns it Stopped with pid 0, leaves
    that on disk, and a later load sees Stopped. *)
Definition heals (env : Env) (m : Manager) (s : World) : Prop :=
  let '(r, s') := Status env m s in
  (exists w', r = inr w' /\ State w' = StateStopped /\ PID w' = 0) /\
  (exists p, persisted s' = Some p /\ State p = StateStopped /\ PID p = 0) /\
  (exists l, loadState m s' = inr l /\ State l = StateStopped).









(** The error a [saveState] under [env] returns, if any. *)
Definition save_error (env : Env) : option error :=
  match os_MkdirAll env with
  | Some e => Some e
  | None =>
      match os_WriteFile env with
      | WriteOk => None
      | WriteFailsIntact e => Some e
      | WriteFailsTruncated e => Some e
      end
  end.

(** The two lines [run] prints on entry. *)
Definition banner : list string :=
  ["Witness running..." ++ nl; "Press Ctrl+C to stop" ++ nl].

(** The lines the loop prints for the given ticks: one per failed save. *)
Definition reports (ticks : list Env) : list string :=
  flat_map (fun env => match save_error env with
                       | Some e => [report e]
                       | None => []
                       end) ticks.

(** The two shapes of record the controller writes under [env]: Stopped
    without a pid, or Running with the pid of the writing process. *)
Definition written_by (pid : Z) (w : Witness) : Prop :=
  (State w = StateStopped /\ PID w = 0) \/
  (State w = StateRunning /\ PID w = pid).

(** The signal [Stop] sends for the record [w], if any. *)
Definition stop_signal (env : Env) (w : Witness) : list Z :=
  if (0 <? PID w) && negb (PID w =? os_Getpid env) && os_FindProcess env (PID w)
  then [PID w] else [].

(** ** version/stale.go *)

Module Version.

(** A [debug.BuildSetting]. *)
Record BuildSetting : Type := mkSetting {
  Key : string;
  Value : string
}.

(** What the process finds outside itself during a staleness check: its
    build information, its environment variables, the commands it runs and
    the two library scanners it calls on their output. *)
Record Host : Type := mkHost {
  debug_ReadBuildInfo : option (list BuildSetting);     (* [(info, ok)], the settings *)
  os_Getenv : string -> string;
  git_rev_parse_HEAD : string -> error + string;        (* by [cmd.Dir]; the output *)
  git_rev_list_count : string -> string -> error + string; (* by [cmd.Dir] and range *)
  git_rev_parse_git_dir : string -> bool;               (* by [cmd.Dir]; [Run() == nil] *)
  git_rev_parse_show_toplevel : error + string;
  test_d : string -> bool;                              (* [test -d path]; [Run() == nil] *)
  strings_TrimSpace : string -> string;
  fmt_Sscanf_d : string -> option Z    (* [Sscanf(s, "%d", &n)]: [n] when one item was scanned without error *)
}.

Definition error_text : error -> string := Error.

Record StaleBinaryInfo : Type := mkInfo {
  IsStale : bool;
  BinaryCommit : string;
  RepoCommit : string;
  CommitsBehind : Z;
  Error : option error
}.

Definition set_IsStale (v : bool) (i : StaleBinaryInfo) : StaleBinaryInfo :=
  mkInfo v (BinaryCommit i) (RepoCommit i) (CommitsBehind i) (Error i).
Definition set_BinaryCommit (v : string) (i : StaleBinaryInfo) : StaleBinaryInfo :=
  mkInfo (IsStale i) v (RepoCommit i) (CommitsBehind i) (Error i).
Definition set_RepoCommit (v : string) (i : StaleBinaryInfo) : StaleBinaryInfo :=
  mkInfo (IsStale i) (BinaryCommit i) v (CommitsBehind i) (Error i).
Definition set_CommitsBehind (v : Z) (i : StaleBinaryInfo) : StaleBinaryInfo :=
  mkInfo (IsStale i) (BinaryCommit i) (RepoCommit i) v (Error i).
Definition set_Error (v : option error) (i : StaleBinaryInfo) : StaleBinaryInfo :=
  mkInfo (IsStale i) (BinaryCommit i) (RepoCommit i) (CommitsBehind i) v.

(** The [for _, setting := range info.Settings] of [resolveCommitHash]: the
    value of the first setting that makes the loop return. *)
Fixpoint first_revision (settings : list BuildSetting) : option string :=
  match settings with
  | [] => None
  | setting :: rest =>
      if (Key setting =? "vcs.revision")%string && negb (Value setting =? "")%string
      then Some (Value setting)
      else first_revision rest
  end.

(** [Commit] is the package variable, passed in. *)
Definition resolveCommitHash (h : Host) (Commit : string) : string :=
  if negb (Commit =? "")%string then Commit
  else
    match debug_ReadBuildInfo h with
    | Some settings =>
        match first_revision settings with
        | Some v => v
        | None => ""
        end
    | None => ""
    end.


Definition ShortCommit (hash : string) : string :=
  if (12 <? String.length hash)%nat then substring 0 12 hash else hash.

(** [strings.HasPrefix(s, prefix)] *)
Definition strings_HasPrefix (s prefix : string) : bool := String.prefix prefix s.

Definition commitsMatch (a b : string) : bool :=
  let minLen := String.length a in
  let minLen := if (String.length b <? minLen)%nat then String.length b else minLen in
  if (minLen <? 7)%nat then false
  else strings_HasPrefix a (substring 0 minLen b)
       || strings_HasPrefix b (substring 0 minLen a).

Definition CheckStaleBinary (h : Host) (Commit : string) (repoDir : string)
  : StaleBinaryInfo :=
  let info := mkInfo false "" "" 0 None in
  let info := set_BinaryCommit (resolveCommitHash h Commit) info in
  if (BinaryCommit info =? "")%string then
    set_Error (Some (SysError "cannot determine binary commit (dev build?)")) info
  else
    match git_rev_parse_HEAD h repoDir with
    | inl err =>
        set_Error (Some (SysError ("cannot get repo HEAD: " ++ error_text err))) info
    | inr output =>
        let info := set_RepoCommit (strings_TrimSpace h output) info in
        if negb (commitsMatch (BinaryCommit info) (RepoCommit info)) then
          let info := set_IsStale true info in
          match git_rev_list_count h repoDir (BinaryCommit info ++ "..HEAD") with
          | inr countOutput =>
              match fmt_Sscanf_d h (strings_TrimSpace h countOutput) with
              | Some n => set_CommitsBehind n info
              | None => set_CommitsBehind 0 info
              end
          | inl _ => info
          end
        else info
    end.

Definition isGitRepo (h : Host) (dir : string) : bool :=
  git_rev_parse_git_dir h dir.

Definition hasGastownMarker (h : Host) (dir : string) : bool :=
  test_d h (dir ++ "/cmd/gt").

(** The [for _, candidate := range candidates] of [GetRepoRoot]. *)
Fixpoint first_candidate (h : Host) (candidates : list string) : option string :=
  match candidates with
  | [] => None
  | candidate :: rest =>
      if isGitRepo h candidate && hasGastownMarker h candidate
      then Some candidate
      else first_candidate h rest
  end.

Definition candidates_of (home : string) : list string :=
  [home ++ "/gt/gastown"; home ++ "/gastown"; home ++ "/src/gastown";
   home ++ "/dev/gastown"].

Definition cannot_locate : error := SysError "cannot locate gt source repository".

Definition GetRepoRoot (h : Host) : error + string :=
  let gtRoot := os_Getenv h "GT_ROOT" in
  if negb (gtRoot =? "")%string && (isGitRepo h gtRoot && hasGastownMarker h gtRoot)
  then inr gtRoot
  else
    let home := os_Getenv h "HOME" in
    match (if negb (home =? "")%string
           then first_candidate h (candidates_of home) else None) with
    | Some candidate => inr candidate
    | None =>
        match git_rev_parse_show_toplevel h with
        | inr output =>
            let root := strings_TrimSpace h output in
            if hasGastownMarker h root then inr root else inl cannot_locate
        | inl _ => inl cannot_locate
        end
    end.

(** A development machine: the binary was built from commit [abc1234def56…],
    the checkout under [/home/gus/gt/gastown] is at the given HEAD. *)
Definition full : string := "abc1234def5678900112233445566778899aabbc".

Definition host (head : string) : Host :=
  mkHost (Some [mkSetting "vcs" "git"; mkSetting "vcs.revision" full])
         (fun k => if (k =? "HOME")%string then "/home/gus" else "")
         (fun _ => inr head)
         (fun _ _ => inr "3")
         (fun dir => (dir =? "/home/gus/gt/gastown")%string)
         (inl (SysError "exit status 128"))
         (fun path => (path =? "/home/gus/gt/gastown/cmd/gt")%string)
         (fun s => s)
         (fun s => if (s =? "3")%string then Some 3 else None).

(** A machine without git and without a checkout. *)
Definition offline : Host :=
  mkHost None
         (fun _ => "")
         (fun _ => inl (SysError "exit status 128"))
         (fun _ _ => inl (SysError "exit status 128"))
         (fun _ => false)
         (inl (SysError "exit status 128"))
         (fun _ => false)
         (fun s => s)
         (fun _ => None).

End Version.

(** * Properties *)

(** ** Go's [int] *)

Lemma wrap_small z : GoInt.in_range z -> GoInt.wrap z = z.
Proof.
  unfold GoInt.in_range, GoInt.wrap, GoInt.min, GoInt.max. intros H.
  rewrite Z.mod_small by lia. lia.
Qed.

Lemma incr_below_max x : GoInt.min <= x < GoInt.max -> GoInt.incr x = x + 1.
Proof.
  intros H. unfold GoInt.incr. apply wrap_small. unfold GoInt.in_range. lia.
Qed.

Lemma incr_at_max : GoInt.incr GoInt.max = GoInt.min.
Proof. reflexivity. Qed.

(** ** The state store *)

Lemma is_running_true w : is_running w = true <-> State w = StateRunning.
Proof. unfold is_running. apply String.eqb_eq. Qed.

Lemma is_running_false w : is_running w = false <-> State w <> StateRunning.
Proof. unfold is_running. apply String.eqb_neq. Qed.

(** The probe as the code calls it finds no process, on any host. *)
Lemma processExists_never env pid : processExists env pid = false.
Proof.
  unfold processExists, proc_Signal.
  destruct (os_FindProcess env pid); reflexivity.
Qed.

Lemma loadState_persisted m s w :
  state_file s = Data (Encoded w) -> loadState m s = inr w.
Proof. intros H. unfold loadState. rewrite H. reflexivity. Qed.

Lemma persisted_Some s w :
  persisted s = Some w <-> state_file s = Data (Encoded w).
Proof.
  unfold persisted. destruct (state_file s) as [| e | [w' | e]]; split;
    intros H; try discriminate; inversion H; reflexivity.
Qed.

Lemma saveState_saves env m w s :
  saves env = true -> saveState env m w s = (None, saved w s).
Proof.
  unfold saves, saveState, saved.
  destruct (os_MkdirAll env); [discriminate |].
  destruct (os_WriteFile env); try discriminate. reflexivity.
Qed.

Lemma saveState_fails env m w s :
  saves env = false -> exists e, fst (saveState env m w s) = Some e.
Proof.
  unfold saves, saveState.
  destruct (os_MkdirAll env) as [e |]; [exists e; reflexivity |].
  destruct (os_WriteFile env) as [| e | e]; try discriminate;
    exists e; reflexivity.
Qed.

(** What a save can leave in the state file: what was there, the record
    saved, or a cut-off file. *)
Lemma saveState_file env m w s :
  let f := state_file (snd (saveState env m w s)) in
  f = state_file s \/ f = Data (Encoded w) \/ f = Data (Malformed unexpected_end).
Proof.
  unfold saveState.
  destruct (os_MkdirAll env); simpl; auto.
  destruct (os_WriteFile env); simpl; auto.
Qed.

(** A save that fails leaves the file as it was, or cut off. *)
Lemma saveState_fails_file env m w s :
  saves env = false ->
  state_file (snd (saveState env m w s)) = state_file s \/
  state_file (snd (saveState env m w s)) = Data (Malformed unexpected_end).
Proof.
  unfold saves, saveState.
  destruct (os_MkdirAll env); simpl; auto.
  destruct (os_WriteFile env); simpl; auto. discriminate.
Qed.

Lemma saveState_stdout env m w s :
  stdout (snd (saveState env m w s)) = stdout s.
Proof.
  unfold saveState.
  destruct (os_MkdirAll env); simpl; [reflexivity |].
  destruct (os_WriteFile env); reflexivity.
Qed.

Lemma load_saved m w s : loadState m (saved w s) = inr w.
Proof. reflexivity. Qed.

(** ** Status *)

Lemma Status_of_stale env m s w :
  state_file s = Data (Encoded w) ->
  State w = StateRunning -> 0 < PID w -> processExists env (PID w) = false ->
  Status env m s =
    (inr (set_MonitoredPolecats (Polecats (rig m)) (stopped_of w)),
     snd (saveState env m (stopped_of w) s)).
Proof.
  intros Hfile Hrun Hpid Hdead. unfold Status.
  rewrite (loadState_persisted m s w Hfile).
  apply is_running_true in Hrun. rewrite Hrun.
  apply Z.ltb_lt in Hpid. rewrite Hpid. rewrite Hdead. simpl.
  fold (stopped_of w).
  destruct (saveState env m (stopped_of w) s). reflexivity.
Qed.

Lemma Status_of_settled env m s w :
  loadState m s = inr w ->
  is_running w && (0 <? PID w) && negb (processExists env (PID w)) = false ->
  Status env m s = (inr (set_MonitoredPolecats (Polecats (rig m)) w), s).
Proof.
  intros Hload Hcond. unfold Status. rewrite Hload.
  destruct (is_running w && (0 <? PID w)); simpl in Hcond |- *.
  - rewrite Hcond. reflexivity.
  - reflexivity.
Qed.

(** C1, as amended.  A persisted record that says Running with a positive
    pid which the probe does not find alive comes back from [Status], with
    no error, as Stopped with pid 0 and the roster refreshed, whether or not
    the save goes through.  When the save goes through, the Stopped record is
    on disk when [Status] returns and the next load sees Stopped.  When the
    save fails, the state file still holds the Running record or is cut off
    by the failed write. *)
Theorem Status_self_heals env m s w :
  state_file s = Data (Encoded w) ->
  State w = StateRunning ->
  0 < PID w ->
  processExists env (PID w) = false ->
  fst (Status env m s) =
    inr (set_MonitoredPolecats (Polecats (rig m)) (stopped_of w)) /\
  State (stopped_of w) = StateStopped /\
  PID (stopped_of w) = 0 /\
  (saves env = true ->
   snd (Status env m s) = saved (stopped_of w) s /\
   persisted (snd (Status env m s)) = Some (stopped_of w) /\
   loadState m (snd (Status env m s)) = inr (stopped_of w) /\
   heals env m s) /\
  (saves env = false ->
   state_file (snd (Status env m s)) = Data (Encoded w) \/
   state_file (snd (Status env m s)) = Data (Malformed unexpected_end)).
Proof.
  intros Hfile Hrun Hpid Hdead.
  pose proof (Status_of_stale env m s w Hfile Hrun Hpid Hdead) as HS.
  rewrite HS. simpl.
  split; [reflexivity |]. split; [reflexivity |]. split; [reflexivity |].
  split.
  - intros Hsave.
    rewrite (saveState_saves env m _ s Hsave) in HS |- *. simpl.
    repeat split.
    unfold heals. rewrite HS. repeat split.
    + eexists. repeat split.
    + exists (stopped_of w). repeat split.
    + exists (stopped_of w). split; reflexivity.
  - intros Hfail.
    destruct (saveState_fails_file env m (stopped_of w) s Hfail) as [Hf | Hf].
    + left. rewrite Hf. exact Hfile.
    + right. exact Hf.
Qed.

Lemma Status_self_heals_witness :
  let env := Sample.env 2000 in
  let s := Sample.on_disk (Sample.running 99) in
  let w := Sample.running 99 in
  fst (Status env Sample.m s) =
    inr (set_MonitoredPolecats (Polecats (rig Sample.m)) (stopped_of w)) /\
  State (stopped_of w) = StateStopped /\
  PID (stopped_of w) = 0 /\
  (saves env = true ->
   snd (Status env Sample.m s) = saved (stopped_of w) s /\
   persisted (snd (Status env Sample.m s)) = Some (stopped_of w) /\
   loadState Sample.m (snd (Status env Sample.m s)) = inr (stopped_of w) /\
   heals env Sample.m s) /\
  (saves env = false ->
   state_file (snd (Status env Sample.m s)) = Data (Encoded w) \/
   state_file (snd (Status env Sample.m s)) = Data (Malformed unexpected_end)).
Proof.
  apply (Status_self_heals (Sample.env 2000) Sample.m
           (Sample.on_disk (Sample.running 99)) (Sample.running 99));
    reflexivity.
Defined.

(** C1, as worded, fails twice.  A record that says Running with pid 0 is
    left alone by the [w.PID > 0] guard although the probe finds no such
    process; and when the disk refuses the write, the file goes on saying
    Running after [Status] has returned Stopped. *)
Lemma Status_heals_counterexample :
  (state_file (Sample.on_disk (Sample.running 0)) = Data (Encoded (Sample.running 0)) /\
   State (Sample.running 0) = StateRunning /\
   processExists (Sample.env 2000) (PID (Sample.running 0)) = false /\
   Status (Sample.env 2000) Sample.m (Sample.on_disk (Sample.running 0)) =
     (inr (set_MonitoredPolecats ["Toast"; "Nux"] (Sample.running 0)),
      Sample.on_disk (Sample.running 0)) /\
   ~ heals (Sample.env 2000) Sample.m (Sample.on_disk (Sample.running 0)))
  /\
  (state_file (Sample.on_disk (Sample.running 99)) = Data (Encoded (Sample.running 99)) /\
   State (Sample.running 99) = StateRunning /\
   processExists (Sample.env_full 2000) (PID (Sample.running 99)) = false /\
   persisted (snd (Status (Sample.env_full 2000) Sample.m
                     (Sample.on_disk (Sample.running 99)))) =
     Some (Sample.running 99) /\
   ~ heals (Sample.env_full 2000) Sample.m (Sample.on_disk (Sample.running 99))).
Proof.
  split; (repeat split; try reflexivity).
  - unfold heals. simpl. intros [[w' [Hr [Hst _]]] _].
    inversion Hr; subst w'. discriminate Hst.
  - unfold heals. simpl. intros [_ [[p [Hp [Hst _]]] _]].
    inversion Hp; subst p. discriminate Hst.
Qed.

(** C10.  When the save of the healed record fails, [Status] drops the
    error: it returns the healed record, Stopped with pid 0, and no error. *)
Theorem Status_swallows_save_error env m s w :
  state_file s = Data (Encoded w) ->
  State w = StateRunning ->
  0 < PID w ->
  processExists env (PID w) = false ->
  saves env = false ->
  (exists e, fst (saveState env m (stopped_of w) s) = Some e) /\
  exists w', fst (Status env m s) = inr w' /\
             w' = set_MonitoredPolecats (Polecats (rig m)) (stopped_of w) /\
             State w' = StateStopped /\ PID w' = 0.
Proof.
  intros Hfile Hrun Hpid Hdead Hsave. split.
  - apply saveState_fails. exact Hsave.
  - rewrite (Status_of_stale env m s w Hfile Hrun Hpid Hdead). simpl.
    eexists. repeat split.
Qed.

Lemma Status_swallows_save_error_witness :
  (exists e, fst (saveState (Sample.env_full 2000) Sample.m
                    (stopped_of (Sample.running 99))
                    (Sample.on_disk (Sample.running 99))) = Some e) /\
  exists w', fst (Status (Sample.env_full 2000) Sample.m
                    (Sample.on_disk (Sample.running 99))) = inr w' /\
             w' = set_MonitoredPolecats (Polecats (rig Sample.m))
                    (stopped_of (Sample.running 99)) /\
             State w' = StateStopped /\ PID w' = 0.
Proof.
  apply (Status_swallows_save_error (Sample.env_full 2000) Sample.m
           (Sample.on_disk (Sample.running 99)) (Sample.running 99));
    reflexivity.
Defined.

(** C6.  Whatever list the persisted record holds, the record [Status]
    returns lists the rig's current polecats. *)
Theorem Status_reports_roster env m s w :
  state_file s = Data (Encoded w) ->
  exists w', fst (Status env m s) = inr w' /\
             MonitoredPolecats w' = Polecats (rig m).
Proof.
  intros Hfile. unfold Status.
  rewrite (loadState_persisted m s w Hfile).
  destruct (is_running w && (0 <? PID w)).
  - destruct (negb (processExists env (PID w))).
    + destruct (saveState env m _ s). eexists. split; reflexivity.
    + eexists. split; reflexivity.
  - eexists. split; reflexivity.
Qed.

Lemma Status_reports_roster_witness :
  exists w', fst (Status (Sample.env 2000) Sample.m
                    (Sample.on_disk (Sample.running 4242))) = inr w' /\
             MonitoredPolecats w' = ["Toast"; "Nux"].
Proof.
  apply (Status_reports_roster (Sample.env 2000) Sample.m
           (Sample.on_disk (Sample.running 4242)) (Sample.running 4242)).
  reflexivity.
Defined.

(** C5.  Without a state file, [loadState] gives the default record for the
    rig (Stopped, pid 0, all counters zero) and no error; [Status] returns
    that record, with the roster filled in, and leaves the disk as it was:
    no file and no directory is created. *)
Theorem Status_without_file env m s :
  state_file s = NotExist ->
  let w0 := mkWitness (Name (rig m)) StateStopped 0 None [] None zeroStats in
  loadState m s = inr w0 /\
  Status env m s = (inr (set_MonitoredPolecats (Polecats (rig m)) w0), s) /\
  (exists w, fst (Status env m s) = inr w /\
             RigName w = Name (rig m) /\ State w = StateStopped /\
             PID w = 0 /\ Stats w = zeroStats) /\
  state_file (snd (Status env m s)) = NotExist /\
  dir_present (snd (Status env m s)) = dir_present s.
Proof.
  intros Hfile w0.
  assert (Hload : loadState m s = inr w0).
  { unfold loadState. rewrite Hfile. reflexivity. }
  assert (HS : Status env m s =
               (inr (set_MonitoredPolecats (Polecats (rig m)) w0), s)).
  { apply Status_of_settled; [exact Hload | reflexivity]. }
  rewrite HS. simpl. repeat split; try assumption.
  eexists. repeat split.
Qed.

Lemma Status_without_file_witness :
  Status (Sample.env 2000) Sample.m Sample.fresh =
    (inr (mkWitness "gastown" StateStopped 0 None ["Toast"; "Nux"] None zeroStats),
     Sample.fresh).
Proof.
  apply (Status_without_file (Sample.env 2000) Sample.m Sample.fresh).
  reflexivity.
Defined.

(** ** Start and Stop *)

Lemma Start_proceeds env m foreground ticks s w :
  loadState m s = inr w ->
  is_running w && (0 <? PID w) && processExists env (PID w) = false ->
  Start env m foreground ticks s =
    match saveState env m (started_of env m w) s with
    | (Some e, s') => (Returned (Some e), s')
    | (None, s') =>
        if foreground then run m (started_of env m w) ticks s'
        else (Returned None, s')
    end.
Proof.
  intros Hload Hfree. unfold Start. rewrite Hload, Hfree. reflexivity.
Qed.

Lemma not_live_running env w :
  ~ (State w = StateRunning /\ 0 < PID w /\ processExists env (PID w) = true) ->
  is_running w && (0 <? PID w) && processExists env (PID w) = false.
Proof.
  intros Hnot.
  destruct (is_running w) eqn:Hrun; [| reflexivity].
  destruct (0 <? PID w) eqn:Hpid; [| reflexivity].
  destruct (processExists env (PID w)) eqn:Hlive; [| reflexivity].
  exfalso. apply Hnot. repeat split.
  - apply is_running_true. exact Hrun.
  - apply Z.ltb_lt. exact Hpid.
Qed.

(** C2.  From every state that loads and is not Running with a live pid, a
    start whose save goes through writes the loaded record with state
    Running, startedAt the clock reading, pid the caller's process id and
    the rig's roster, everything else as loaded.  A background start then
    returns without error; a foreground start goes on into the monitoring
    loop with that record. *)
Theorem Start_marks_running env m foreground ticks s w :
  loadState m s = inr w ->
  ~ (State w = StateRunning /\ 0 < PID w /\ processExists env (PID w) = true) ->
  saves env = true ->
  let w' := started_of env m w in
  State w' = StateRunning /\
  StartedAt w' = Some (time_Now env) /\
  PID w' = os_Getpid env /\
  MonitoredPolecats w' = Polecats (rig m) /\
  persisted (saved w' s) = Some w' /\
  Start env m foreground ticks s =
    (if foreground then run m w' ticks (saved w' s)
     else (Returned None, saved w' s)).
Proof.
  intros Hload Hfree Hsave w'.
  repeat split.
  rewrite (Start_proceeds env m foreground ticks s w Hload
             (not_live_running env w Hfree)).
  fold w'. rewrite (saveState_saves env m w' s Hsave). reflexivity.
Qed.

Lemma Start_marks_running_witness :
  Start (Sample.env 2000) Sample.m false [] (Sample.on_disk Sample.stopped) =
    (Returned None,
     Sample.on_disk
       (mkWitness "gastown" StateRunning 4242 (Some 2000) ["Toast"; "Nux"]
                  (Some 1500) (mkStats 7 0 0 3 0))) /\
  Start (Sample.env 2000) Sample.m true [] Sample.fresh =
    run Sample.m
        (mkWitness "gastown" StateRunning 4242 (Some 2000) ["Toast"; "Nux"]
                   None zeroStats)
        []
        (Sample.on_disk
           (mkWitness "gastown" StateRunning 4242 (Some 2000) ["Toast"; "Nux"]
                      None zeroStats)).
Proof.
  split.
  - apply (Start_marks_running (Sample.env 2000) Sample.m false []
             (Sample.on_disk Sample.stopped) Sample.stopped).
    + reflexivity.
    + intros [Hrun _]. discriminate Hrun.
    + reflexivity.
  - apply (Start_marks_running (Sample.env 2000) Sample.m true []
             Sample.fresh
             (mkWitness "gastown" StateStopped 0 None [] None zeroStats)).
    + reflexivity.
    + intros [Hrun _]. discriminate Hrun.
    + reflexivity.
Defined.

(** C3.  The code does not do what the claim says.  [processExists] hands
    [nil] to [proc.Signal], which refuses it, so the probe finds no process
    alive.  Here the state file says Running with pid 4242, process 4242 is
    alive (it is the caller, and it takes signals), and yet [Start] is not
    refused: it returns no error and rewrites the record, moving [StartedAt]
    from 1000 to 3000. *)
Theorem Start_overwrites_live_witness :
  let env := Sample.env 3000 in
  let s := Sample.on_disk (Sample.running 4242) in
  State (Sample.running 4242) = StateRunning /\
  0 < PID (Sample.running 4242) /\
  os_Getpid env = PID (Sample.running 4242) /\
  syscall_Kill env (PID (Sample.running 4242)) Interrupt = true /\
  processExists env (PID (Sample.running 4242)) = false /\
  StartedAt (Sample.running 4242) = Some 1000 /\
  Start env Sample.m false [] s =
    (Returned None,
     Sample.on_disk
       (mkWitness "gastown" StateRunning 4242 (Some 3000) ["Toast"; "Nux"]
                  (Some 1500) (mkStats 7 0 0 3 0))) /\
  fst (Start env Sample.m false [] s) <> Returned (Some ErrAlreadyRunning).
Proof.
  cbv zeta. repeat split. discriminate.
Qed.

(** C4.  When the record loaded is in any state other than Running (Stopped
    and Paused among them), [Stop] returns [ErrNotRunning] and leaves the
    world, the state file with it, as it found it. *)
Theorem Stop_not_running env m s w :
  loadState m s = inr w ->
  State w <> StateRunning ->
  Stop env m s = (Some ErrNotRunning, s).
Proof.
  intros Hload Hstate. unfold Stop. rewrite Hload.
  apply is_running_false in Hstate. rewrite Hstate. reflexivity.
Qed.

Lemma Stop_not_running_witness :
  Stop (Sample.env 2000) Sample.m (Sample.on_disk Sample.stopped) =
    (Some ErrNotRunning, Sample.on_disk Sample.stopped) /\
  Stop (Sample.env 2000) Sample.m
       (Sample.on_disk (set_State StatePaused Sample.stopped)) =
    (Some ErrNotRunning, Sample.on_disk (set_State StatePaused Sample.stopped)).
Proof.
  split.
  - apply (Stop_not_running (Sample.env 2000) Sample.m
             (Sample.on_disk Sample.stopped) Sample.stopped);
      [reflexivity | discriminate].
  - apply (Stop_not_running (Sample.env 2000) Sample.m
             (Sample.on_disk (set_State StatePaused Sample.stopped))
             (set_State StatePaused Sample.stopped));
      [reflexivity | discriminate].
Defined.

(** ** The health check *)

Lemma healthCheck_eq env m w s :
  healthCheck env m w s =
    (checked (time_Now env) w,
     fst (saveState env m (checked (time_Now env) w) s),
     snd (saveState env m (checked (time_Now env) w) s)).
Proof.
  unfold healthCheck.
  change (set_Stats _ (set_Stats _ (set_LastCheckAt _ w)))
    with (checked (time_Now env) w).
  destruct (saveState env m (checked (time_Now env) w) s). reflexivity.
Qed.




(** ** The monitoring loop *)

Lemma for_select_app body before after w s :
  for_select body (before ++ after) w s =
    match for_select body before w s with
    | (Blocked w1, s1) => for_select body after w1 s1
    | (Returned err, s1) => (Returned err, s1)
    end.
Proof.
  revert w s. induction before as [| env before IH]; intros w s; simpl.
  - reflexivity.
  - destruct (body env w s) as [[w1 | err] s1].
    + apply IH.
    + reflexivity.
Qed.

Lemma run_body_continues m env w s :
  exists s', run_body m env w s = (Continue (checked (time_Now env) w), s').
Proof.
  unfold run_body. rewrite healthCheck_eq.
  destruct (fst (saveState env m (checked (time_Now env) w) s)); eauto.
Qed.

(** The loop has no way out: after any ticks it is waiting for the next
    one, and it has run one health check for every tick served. *)
Lemma for_select_blocked m ticks w s :
  fst (for_select (run_body m) ticks w s) = Blocked (checked_all ticks w).
Proof.
  revert w s. induction ticks as [| env ticks IH]; intros w s; simpl.
  - reflexivity.
  - destruct (run_body_continues m env w s) as [s' Hbody].
    rewrite Hbody. apply IH.
Qed.

Lemma run_app m w before after s :
  run m w (before ++ after) s =
    match run m w before s with
    | (Blocked w1, s1) => for_select (run_body m) after w1 s1
    | (Returned err, s1) => (Returned err, s1)
    end.
Proof. unfold run. apply for_select_app. Qed.

(** C9.  At every tick of the loop, a health check whose save fails is
    reported on standard output and the loop goes round again: the ticks
    that follow are served from the record that check left in memory, and
    after any number of further ticks the loop is still waiting, having
    run a health check for each of them. *)
Theorem run_outlives_save_failure m w s before env after w1 s1 :
  run m w before s = (Blocked w1, s1) ->
  saves env = false ->
  exists e s2,
    healthCheck env m w1 s1 = (checked (time_Now env) w1, Some e, s2) /\
    run_body m env w1 s1 =
      (Continue (checked (time_Now env) w1), print (report e) s2) /\
    stdout (print (report e) s2) = (stdout s1 ++ [report e])%list /\
    run m w (before ++ env :: after) s =
      for_select (run_body m) after (checked (time_Now env) w1)
                 (print (report e) s2) /\
    fst (run m w (before ++ env :: after) s) =
      Blocked (checked_all after (checked (time_Now env) w1)).
Proof.
  intros Hbefore Hfail.
  destruct (saveState_fails env m (checked (time_Now env) w1) s1 Hfail)
    as [e He].
  exists e, (snd (saveState env m (checked (time_Now env) w1) s1)).
  assert (HC : healthCheck env m w1 s1 =
               (checked (time_Now env) w1, Some e,
                snd (saveState env m (checked (time_Now env) w1) s1))).
  { rewrite healthCheck_eq, He. reflexivity. }
  assert (HB : run_body m env w1 s1 =
               (Continue (checked (time_Now env) w1),
                print (report e)
                  (snd (saveState env m (checked (time_Now env) w1) s1)))).
  { unfold run_body. rewrite HC. reflexivity. }
  assert (HR : run m w (before ++ env :: after) s =
               for_select (run_body m) after (checked (time_Now env) w1)
                 (print (report e)
                    (snd (saveState env m (checked (time_Now env) w1) s1)))).
  { rewrite run_app, Hbefore. simpl. rewrite HB. reflexivity. }
  repeat split; try assumption.
  - simpl. rewrite saveState_stdout. reflexivity.
  - rewrite HR. apply for_select_blocked.
Qed.

Lemma run_outlives_save_failure_witness :
  fst (run Sample.m (Sample.running 4242)
           ([Sample.env 2030] ++ Sample.env_full 2060 :: [Sample.env 2090])
           (Sample.on_disk (Sample.running 4242))) =
    Blocked (checked 2090 (checked 2060 (checked 2030 (Sample.running 4242)))).
Proof.
  destruct (run_outlives_save_failure Sample.m (Sample.running 4242)
              (Sample.on_disk (Sample.running 4242))
              [Sample.env 2030] (Sample.env_full 2060) [Sample.env 2090]
              _ _ eq_refl eq_refl)
    as [e [s2 [_ [_ [_ [_ Hblocked]]]]]].
  exact Hblocked.
Defined.

(** ** The counters *)

Lemma more_checks_0 a : more_checks 0 a = a.
Proof.
  destruct a. unfold more_checks. simpl. f_equal; lia.
Qed.

Lemma more_checks_le a k k' :
  k <= k' -> stats_le (more_checks k a) (more_checks k' a).
Proof.
  intros H. unfold stats_le, more_checks. simpl. lia.
Qed.

Lemma checked_stats now w w0 j :
  0 <= j ->
  room_for (j + 1) (Stats w0) ->
  Stats w = more_checks j (Stats w0) ->
  Stats (checked now w) = more_checks (j + 1) (Stats w0).
Proof.
  intros Hj [Hmin1 [Hmax1 [Hmin2 Hmax2]]] Hw.
  unfold checked. simpl. rewrite Hw. unfold more_checks. simpl.
  rewrite !incr_below_max by lia.
  f_equal; lia.
Qed.

Lemma within_ext w0 lo hi s s' :
  state_file s' = state_file s -> within w0 lo hi s -> within w0 lo hi s'.
Proof.
  intros Hfile H w1 Hw1. apply H.
  unfold persisted in *. rewrite <- Hfile. exact Hw1.
Qed.

Lemma within_weaken w0 lo hi hi' s :
  hi <= hi' -> within w0 lo hi s -> within w0 lo hi' s.
Proof.
  intros Hle H w1 Hw1. destruct (H w1 Hw1) as [k [Hk Hs]].
  exists k. split; [lia | exact Hs].
Qed.

Lemma saveState_within env m w0 lo hi w k s :
  within w0 lo hi s ->
  lo <= k <= hi ->
  Stats w = more_checks k (Stats w0) ->
  within w0 lo hi (snd (saveState env m w s)).
Proof.
  intros Hs Hk Hw w1 Hw1.
  apply persisted_Some in Hw1.
  destruct (saveState_file env m w s) as [Hf | [Hf | Hf]];
    rewrite Hf in Hw1.
  - apply Hs. apply persisted_Some. exact Hw1.
  - inversion Hw1; subst w1. exists k. split; assumption.
  - discriminate Hw1.
Qed.

(** A save never removes the file: where there was data there is data. *)
Lemma saveState_keeps_data env m w s d :
  state_file s = Data d ->
  exists d', state_file (snd (saveState env m w s)) = Data d'.
Proof.
  intros Hd.
  destruct (saveState_file env m w s) as [Hf | [Hf | Hf]]; rewrite Hf; eauto.
Qed.

(** The loop keeps the persisted counters between where they stood and the
    number of checks it has run. *)
Lemma for_select_within m w0 lo ticks :
  forall j w s,
    lo <= j -> 0 <= j ->
    room_for (j + Z.of_nat (length ticks)) (Stats w0) ->
    Stats w = more_checks j (Stats w0) ->
    within w0 lo j s ->
    within w0 lo (j + Z.of_nat (length ticks))
           (snd (for_select (run_body m) ticks w s)).
Proof.
  induction ticks as [| env ticks IH]; intros j w s Hlo Hj Hroom Hw Hs.
  - simpl. rewrite Z.add_0_r. exact Hs.
  - cbn [for_select]. unfold run_body at 1. rewrite healthCheck_eq.
    rewrite length_cons, Nat2Z.inj_succ in *.
    assert (Hroom1 : room_for (j + 1) (Stats w0)).
    { destruct Hroom as [? [? [? ?]]]. unfold room_for. lia. }
    pose proof (checked_stats (time_Now env) w w0 j Hj Hroom1 Hw) as Hw'.
    assert (Hs' : within w0 lo (j + 1)
                    (snd (saveState env m (checked (time_Now env) w) s))).
    { apply (saveState_within env m w0 lo (j + 1) _ (j + 1)).
      - apply (within_weaken w0 lo j); [lia | exact Hs].
      - lia.
      - exact Hw'. }
    replace (j + Z.succ (Z.of_nat (length ticks)))
      with ((j + 1) + Z.of_nat (length ticks)) in * by lia.
    destruct (fst (saveState env m (checked (time_Now env) w) s)) as [e |].
    + apply IH; [lia | lia | exact Hroom | exact Hw' |].
      exact (within_ext w0 lo (j + 1) _ _ eq_refl Hs').
    + apply IH; try lia; assumption.
Qed.

Lemma stats_le_trans a b c : stats_le a b -> stats_le b c -> stats_le a c.
Proof. unfold stats_le. lia. Qed.

Lemma within_loaded m s w :
  loadState m s = inr w -> within w 0 0 s.
Proof.
  intros Hload w1 Hw1. apply persisted_Some in Hw1.
  rewrite (loadState_persisted m s w1 Hw1) in Hload.
  inversion Hload; subst w1.
  exists 0. split; [lia | symmetry; apply more_checks_0].
Qed.

Lemma exec_load_fails m env op s e :
  loadState m s = inl e -> exec m env op s = s.
Proof.
  intros Hload. destruct op; simpl.
  - unfold Status. rewrite Hload. reflexivity.
  - unfold Start. rewrite Hload. reflexivity.
  - unfold Stop. rewrite Hload. reflexivity.
Qed.

Lemma Status_world env m s w :
  loadState m s = inr w ->
  snd (Status env m s) = s \/
  snd (Status env m s) = snd (saveState env m (stopped_of w) s).
Proof.
  intros Hload. unfold Status. rewrite Hload.
  destruct (is_running w && (0 <? PID w)); [| left; reflexivity].
  destruct (negb (processExists env (PID w))); [| left; reflexivity].
  fold (stopped_of w).
  destruct (saveState env m (stopped_of w) s). right. reflexivity.
Qed.

Lemma Stop_world env m s w :
  loadState m s = inr w ->
  snd (Stop env m s) = s \/
  exists s0, state_file s0 = state_file s /\
             snd (Stop env m s) = snd (saveState env m (stopped_of w) s0).
Proof.
  intros Hload. unfold Stop. rewrite Hload.
  destruct (negb (is_running w)); [left; reflexivity |].
  right. fold (stopped_of w).
  destruct ((0 <? PID w) && negb (PID w =? os_Getpid env)).
  - destruct (os_FindProcess env (PID w)).
    + exists (interrupt (PID w) s). split; reflexivity.
    + exists s. split; reflexivity.
  - exists s. split; reflexivity.
Qed.

Lemma Start_world env m foreground ticks s w :
  loadState m s = inr w ->
  snd (Start env m foreground ticks s) = s \/
  snd (Start env m foreground ticks s) =
    snd (saveState env m (started_of env m w) s) \/
  foreground = true /\
  snd (Start env m foreground ticks s) =
    snd (run m (started_of env m w) ticks
           (snd (saveState env m (started_of env m w) s))).
Proof.
  intros Hload.
  destruct (is_running w && (0 <? PID w) && processExists env (PID w))
    eqn:Hbusy.
  - left. unfold Start. rewrite Hload, Hbusy. reflexivity.
  - right. rewrite (Start_proceeds env m foreground ticks s w Hload Hbusy).
    destruct (saveState env m (started_of env m w) s) as [[e |] s1]; simpl.
    + left. reflexivity.
    + destruct foreground; [right; split; reflexivity | left; reflexivity].
Qed.

(** The loop never removes the state file either. *)
Lemma for_select_keeps_data m ticks :
  forall w s d,
    state_file s = Data d ->
    exists d', state_file (snd (for_select (run_body m) ticks w s)) = Data d'.
Proof.
  induction ticks as [| env ticks IH]; intros w s d Hd.
  - simpl. eauto.
  - cbn [for_select]. unfold run_body at 1. rewrite healthCheck_eq.
    destruct (saveState_keeps_data env m (checked (time_Now env) w) s d Hd)
      as [d' Hd'].
    destruct (fst (saveState env m (checked (time_Now env) w) s));
      apply (IH _ _ d'); exact Hd'.
Qed.

Lemma room_for_less n n' a :
  n' <= n -> room_for n a -> room_for n' a.
Proof. unfold room_for. lia. Qed.

Lemma checked_all_stats ticks :
  forall w0 w j,
    0 <= j ->
    room_for (j + Z.of_nat (length ticks)) (Stats w0) ->
    Stats w = more_checks j (Stats w0) ->
    Stats (checked_all ticks w) =
      more_checks (j + Z.of_nat (length ticks)) (Stats w0).
Proof.
  induction ticks as [| env ticks IH]; intros w0 w j Hj Hroom Hw.
  - simpl. rewrite Z.add_0_r. exact Hw.
  - cbn [checked_all fold_left]. fold (checked_all ticks (checked (time_Now env) w)).
    rewrite length_cons, Nat2Z.inj_succ in *.
    replace (j + Z.succ (Z.of_nat (length ticks)))
      with ((j + 1) + Z.of_nat (length ticks)) in * by lia.
    apply IH; [lia | exact Hroom |].
    apply checked_stats; [exact Hj | | exact Hw].
    apply (room_for_less (j + 1 + Z.of_nat (length ticks))); [lia | exact Hroom].
Qed.

(** Inside one foreground start the persisted counters do not go down from
    one tick to a later one. *)
Lemma ticks_never_lower env m before after s w wa wb :
  loadState m s = inr w ->
  room_for (Z.of_nat (length (before ++ after))) (Stats w) ->
  persisted (snd (Start env m true before s)) = Some wa ->
  persisted (snd (Start env m true (before ++ after) s)) = Some wb ->
  stats_le (Stats wa) (Stats wb).
Proof.
  intros Hload Hroom Ha Hb.
  rewrite length_app, Nat2Z.inj_add in Hroom.
  assert (Hsame : forall a b : Witness, Some a = Some b ->
                    stats_le (Stats a) (Stats b)).
  { intros a b Hab. inversion Hab. unfold stats_le. lia. }
  destruct (is_running w && (0 <? PID w) && processExists env (PID w))
    eqn:Hbusy.
  - unfold Start in Ha, Hb. rewrite Hload, Hbusy in Ha, Hb.
    apply Hsame. rewrite <- Ha, <- Hb. reflexivity.
  - rewrite (Start_proceeds env m true before s w Hload Hbusy) in Ha.
    rewrite (Start_proceeds env m true (before ++ after) s w Hload Hbusy) in Hb.
    pose proof (saveState_within env m w 0 0 (started_of env m w) 0 s
                  (within_loaded m s w Hload) ltac:(lia)
                  (eq_sym (more_checks_0 (Stats w)))) as Hs1.
    destruct (saveState env m (started_of env m w) s) as [[e |] s1].
    + apply Hsame. rewrite <- Ha, <- Hb. reflexivity.
    + simpl in Hs1. rewrite run_app in Hb.
      set (j := Z.of_nat (length before)) in *.
      assert (Hj : 0 <= j) by (unfold j; lia).
      assert (Hroomj : room_for (0 + j) (Stats w)).
      { apply (room_for_less (j + Z.of_nat (length after))); [lia | exact Hroom]. }
      assert (Hblk : fst (run m (started_of env m w) before s1) =
                     Blocked (checked_all before (started_of env m w))).
      { unfold run. apply for_select_blocked. }
      assert (Hin : within w 0 (0 + j)
                      (snd (run m (started_of env m w) before s1))).
      { unfold run. apply for_select_within; try lia.
        - exact Hroomj.
        - symmetry. apply more_checks_0.
        - apply (within_ext w 0 0 s1); [reflexivity | exact Hs1]. }
      destruct (run m (started_of env m w) before s1) as [o sb].
      simpl in Hblk, Hin, Ha. subst o.
      destruct (Hin wa Ha) as [ka [Hka Hwa]].
      assert (Hmem : Stats (checked_all before (started_of env m w)) =
                     more_checks (0 + j) (Stats w)).
      { apply checked_all_stats;
          [lia | exact Hroomj | symmetry; apply more_checks_0]. }
      assert (Hfrom : within w ka (0 + j) sb).
      { intros w1 Hw1. rewrite Ha in Hw1. inversion Hw1; subst w1.
        exists ka. split; [lia | exact Hwa]. }
      pose proof (for_select_within m w ka after (0 + j) _ sb
                    ltac:(lia) ltac:(lia) Hroom Hmem Hfrom) as Hout.
      destruct (Hout wb Hb) as [kb [Hkb Hwb]].
      rewrite Hwa, Hwb. apply more_checks_le. lia.
Qed.


(** * More of manager.go *)

(** ** saveState *)

Lemma saveState_error env m w s :
  fst (saveState env m w s) = save_error env.
Proof.
  unfold saveState, save_error.
  destruct (os_MkdirAll env); [reflexivity |].
  destruct (os_WriteFile env); reflexivity.
Qed.

Lemma saves_save_error env : saves env = true <-> save_error env = None.
Proof.
  unfold saves, save_error.
  destruct (os_MkdirAll env); [split; discriminate |].
  destruct (os_WriteFile env); split; try discriminate; reflexivity.
Qed.

Lemma saveState_interrupts env m w s :
  interrupts (snd (saveState env m w s)) = interrupts s.
Proof.
  unfold saveState.
  destruct (os_MkdirAll env); simpl; [reflexivity |].
  destruct (os_WriteFile env); reflexivity.
Qed.

(** ** Load errors *)

(** X11.  When the state file cannot be read or does not decode, [Status],
    [Start] and [Stop] all return that very error and leave the world as it
    is: nothing is written, printed or signalled, and the file is not taken
    for absent. *)
Theorem load_error_propagates env m s e :
  state_file s = Unreadable e \/ state_file s = Data (Malformed e) ->
  Status env m s = (inl e, s) /\
  (forall foreground ticks,
     Start env m foreground ticks s = (Returned (Some e), s)) /\
  Stop env m s = (Some e, s).
Proof.
  intros Hfile.
  assert (Hload : loadState m s = inl e).
  { unfold loadState. destruct Hfile as [-> | ->]; reflexivity. }
  unfold Status, Start, Stop. rewrite Hload. auto.
Qed.

Lemma load_error_propagates_witness :
  let s := mkWorld true (Data (Malformed unexpected_end)) [] [] in
  Status (Sample.env 2000) Sample.m s = (inl unexpected_end, s) /\
  (forall foreground ticks,
     Start (Sample.env 2000) Sample.m foreground ticks s =
       (Returned (Some unexpected_end), s)) /\
  Stop (Sample.env 2000) Sample.m s = (Some unexpected_end, s).
Proof.
  apply (load_error_propagates (Sample.env 2000) Sample.m
           (mkWorld true (Data (Malformed unexpected_end)) [] [])
           unexpected_end).
  right. reflexivity.
Defined.

(** ** Status *)

Lemma stale_dec env w :
  is_running w && (0 <? PID w) && negb (processExists env (PID w)) = true <->
  State w = StateRunning /\ 0 < PID w /\ processExists env (PID w) = false.
Proof.
  rewrite !andb_true_iff, negb_true_iff, is_running_true, Z.ltb_lt. tauto.
Qed.

(** X12.  [Status] only reads unless the record says Running with a
    positive pid: for a record in any other state (Stopped and Paused among
    them) and for a Running one whose pid is zero or negative it returns the
    record as loaded, with the roster filled in, and leaves the world as it
    is. *)
Theorem Status_reads_only env m s w :
  loadState m s = inr w ->
  State w <> StateRunning \/ PID w <= 0 ->
  Status env m s = (inr (set_MonitoredPolecats (Polecats (rig m)) w), s).
Proof.
  intros Hload Hquiet. apply Status_of_settled; [exact Hload |].
  destruct (is_running w && (0 <? PID w) && negb (processExists env (PID w)))
    eqn:Hstale; [| reflexivity].
  apply stale_dec in Hstale as [Hrun [Hpid _]].
  destruct Hquiet as [Hstate | Hnopid]; [contradiction | lia].
Qed.

Lemma Status_reads_only_witness :
  Status (Sample.env 2000) Sample.m
         (Sample.on_disk (set_State StatePaused (Sample.running 99))) =
    (inr (set_MonitoredPolecats (Polecats (rig Sample.m))
            (set_State StatePaused (Sample.running 99))),
     Sample.on_disk (set_State StatePaused (Sample.running 99))) /\
  Status (Sample.env 2000) Sample.m (Sample.on_disk (Sample.running 0)) =
    (inr (set_MonitoredPolecats (Polecats (rig Sample.m)) (Sample.running 0)),
     Sample.on_disk (Sample.running 0)).
Proof.
  split.
  - apply (Status_reads_only (Sample.env 2000) Sample.m
             (Sample.on_disk (set_State StatePaused (Sample.running 99)))
             (set_State StatePaused (Sample.running 99))).
    + reflexivity.
    + left. discriminate.
  - apply (Status_reads_only (Sample.env 2000) Sample.m
             (Sample.on_disk (Sample.running 0)) (Sample.running 0)).
    + reflexivity.
    + right. simpl. lia.
Defined.

(** X13.  Asking twice gives the same answer: unless a failed write cuts the
    file off, a second [Status] under the same conditions returns what the
    first returned and leaves the world the first left. *)
Theorem Status_idempotent env m s :
  (forall e, os_WriteFile env <> WriteFailsTruncated e) ->
  Status env m (snd (Status env m s)) = Status env m s.
Proof.
  intros Hwrite.
  destruct (loadState m s) as [e | w] eqn:Hload.
  - assert (HS : Status env m s = (inl e, s))
      by (unfold Status; rewrite Hload; reflexivity).
    rewrite HS. simpl. exact HS.
  - destruct (is_running w && (0 <? PID w) && negb (processExists env (PID w)))
      eqn:Hstale.
    + pose proof Hstale as Hs. apply stale_dec in Hs as [Hrun [Hpid Hdead]].
      assert (Hfile : state_file s = Data (Encoded w)).
      { unfold loadState in Hload.
        destruct (state_file s) as [| e | [w' | e]]; try discriminate.
        - inversion Hload; subst w. discriminate Hrun.
        - simpl in Hload. inversion Hload. reflexivity. }
      rewrite (Status_of_stale env m s w Hfile Hrun Hpid Hdead).
      destruct (os_MkdirAll env) as [e |] eqn:Hmk.
      * assert (Hsv : forall s0, saveState env m (stopped_of w) s0 = (Some e, s0))
          by (intros s0; unfold saveState; rewrite Hmk; reflexivity).
        rewrite Hsv. simpl.
        rewrite (Status_of_stale env m s w Hfile Hrun Hpid Hdead), Hsv.
        reflexivity.
      * destruct (os_WriteFile env) as [| e | e] eqn:Hwr.
        -- assert (Hsv : forall s0, saveState env m (stopped_of w) s0 =
                                    (None, saved (stopped_of w) s0))
             by (intros s0; unfold saveState; rewrite Hmk, Hwr; reflexivity).
           rewrite Hsv. simpl.
           apply Status_of_settled; reflexivity.
        -- assert (Hsv : forall s0, saveState env m (stopped_of w) s0 =
                                    (Some e, set_dir true s0))
             by (intros s0; unfold saveState; rewrite Hmk, Hwr; reflexivity).
           rewrite Hsv. simpl.
           rewrite (Status_of_stale env m (set_dir true s) w Hfile Hrun Hpid Hdead).
           rewrite Hsv. reflexivity.
        -- exfalso. apply (Hwrite e). reflexivity.
    + rewrite (Status_of_settled env m s w Hload Hstale). simpl.
      apply (Status_of_settled env m s w Hload Hstale).
Qed.

Lemma Status_idempotent_witness :
  Status (Sample.env_full 2000) Sample.m
         (snd (Status (Sample.env_full 2000) Sample.m
                 (Sample.on_disk (Sample.running 99)))) =
  Status (Sample.env_full 2000) Sample.m (Sample.on_disk (Sample.running 99)).
Proof.
  apply (Status_idempotent (Sample.env_full 2000) Sample.m
           (Sample.on_disk (Sample.running 99))).
  intros e H. discriminate H.
Defined.

(** X14.  The healed record goes to disk before the roster is refreshed:
    whatever [Status] does, the list of polecats in the state file afterwards
    is the one that was there before. *)
Theorem Status_keeps_persisted_roster env m s w0 w1 :
  persisted s = Some w0 ->
  persisted (snd (Status env m s)) = Some w1 ->
  MonitoredPolecats w1 = MonitoredPolecats w0.
Proof.
  intros H0 H1.
  apply persisted_Some in H0.
  pose proof (loadState_persisted m s w0 H0) as Hload.
  destruct (Status_world env m s w0 Hload) as [H | H]; rewrite H in H1.
  - apply persisted_Some in H1. rewrite H0 in H1. inversion H1. reflexivity.
  - apply persisted_Some in H1.
    destruct (saveState_file env m (stopped_of w0) s) as [Hf | [Hf | Hf]];
      rewrite Hf in H1.
    + rewrite H0 in H1. inversion H1. reflexivity.
    + inversion H1. reflexivity.
    + discriminate H1.
Qed.

Lemma Status_keeps_persisted_roster_witness :
  MonitoredPolecats (stopped_of (Sample.running 99)) = ["Rictus"].
Proof.
  apply (Status_keeps_persisted_roster (Sample.env 2000) Sample.m
           (Sample.on_disk (Sample.running 99)) (Sample.running 99)
           (stopped_of (Sample.running 99))); reflexivity.
Defined.

(** ** Stop *)

Lemma Stop_of_running env m s w :
  loadState m s = inr w ->
  State w = StateRunning ->
  exists s0,
    state_file s0 = state_file s /\ dir_present s0 = dir_present s /\
    stdout s0 = stdout s /\
    interrupts s0 = (interrupts s ++ stop_signal env w)%list /\
    Stop env m s = saveState env m (stopped_of w) s0.
Proof.
  intros Hload Hrun. unfold Stop. rewrite Hload.
  apply is_running_true in Hrun. rewrite Hrun. simpl negb. cbv iota.
  fold (stopped_of w). unfold stop_signal.
  destruct ((0 <? PID w) && negb (PID w =? os_Getpid env)); simpl.
  - destruct (os_FindProcess env (PID w)).
    + exists (interrupt (PID w) s). repeat split.
    + exists s. repeat split. symmetry. apply app_nil_r.
  - exists s. repeat split. symmetry. apply app_nil_r.
Qed.

(** X15.  [Stop] on a record that says Running, when the save goes through,
    returns no error and leaves that record on disk with state Stopped and
    pid 0 and every other field, [StartedAt] among them, as it was; it asks
    no liveness question, prints nothing, and a second [Stop] on the result
    is refused with [ErrNotRunning]. *)
Theorem Stop_stops env m s w :
  loadState m s = inr w ->
  State w = StateRunning ->
  saves env = true ->
  let s' := snd (Stop env m s) in
  fst (Stop env m s) = None /\
  persisted s' =
    Some (mkWitness (RigName w) StateStopped 0 (StartedAt w)
                    (MonitoredPolecats w) (LastCheckAt w) (Stats w)) /\
  stdout s' = stdout s /\
  interrupts s' = (interrupts s ++ stop_signal env w)%list /\
  forall env', Stop env' m s' = (Some ErrNotRunning, s').
Proof.
  intros Hload Hrun Hsave s'.
  destruct (Stop_of_running env m s w Hload Hrun)
    as [s0 [Hfile [Hdir [Hout [Hsig HS]]]]].
  unfold s'. rewrite HS, (saveState_saves env m _ s0 Hsave). simpl.
  repeat split; assumption.
Qed.

Lemma Stop_stops_witness :
  let s' := snd (Stop (Sample.env 2100) Sample.m (Sample.on_disk (Sample.running 99))) in
  fst (Stop (Sample.env 2100) Sample.m (Sample.on_disk (Sample.running 99))) = None /\
  persisted s' =
    Some (mkWitness "gastown" StateStopped 0 (Some 1000) ["Rictus"] (Some 1500)
                    (mkStats 7 0 0 3 0)) /\
  stdout s' = [] /\
  interrupts s' = [99] /\
  forall env', Stop env' Sample.m s' = (Some ErrNotRunning, s').
Proof.
  apply (Stop_stops (Sample.env 2100) Sample.m
           (Sample.on_disk (Sample.running 99)) (Sample.running 99));
    reflexivity.
Defined.

(** X16.  [Stop] sends at most one interrupt, and only to the positive pid of
    a record that says Running; it never signals the calling process and
    never a pid that is zero or negative. *)
Theorem Stop_signals env m s :
  exists l,
    interrupts (snd (Stop env m s)) = (interrupts s ++ l)%list /\
    (length l <= 1)%nat /\
    forall pid, In pid l ->
      0 < pid /\ pid <> os_Getpid env /\
      exists w, loadState m s = inr w /\ State w = StateRunning /\ PID w = pid.
Proof.
  destruct (loadState m s) as [e | w] eqn:Hload.
  - exists []. unfold Stop. rewrite Hload. simpl.
    rewrite app_nil_r.
    split; [reflexivity | split; [simpl; lia | intros p []]].
  - destruct (is_running w) eqn:Hrun.
    + apply is_running_true in Hrun.
      destruct (Stop_of_running env m s w Hload Hrun)
        as [s0 [_ [_ [_ [Hsig HS]]]]].
      exists (stop_signal env w). rewrite HS, saveState_interrupts.
      split; [exact Hsig |].
      unfold stop_signal.
      destruct ((0 <? PID w) && negb (PID w =? os_Getpid env)
                && os_FindProcess env (PID w)) eqn:Hcond.
      * apply andb_true_iff in Hcond as [Hcond _].
        apply andb_true_iff in Hcond as [Hpos Hself].
        apply Z.ltb_lt in Hpos. apply negb_true_iff, Z.eqb_neq in Hself.
        split; [simpl; lia |].
        intros p [Hp | []]. subst p. repeat split; try assumption.
        exists w. repeat split; assumption.
      * split; [simpl; lia | intros pid []].
    + exists []. unfold Stop. rewrite Hload, Hrun. simpl.
      rewrite app_nil_r.
    split; [reflexivity | split; [simpl; lia | intros p []]].
Qed.

(** ** Start *)

(** X17.  A [Start] whose save fails returns the error of the save and goes
    no further: also in foreground mode the loop is not entered, nothing is
    printed and no tick is served. *)
Theorem Start_save_fails env m foreground ticks s w :
  loadState m s = inr w ->
  ~ (State w = StateRunning /\ 0 < PID w /\ processExists env (PID w) = true) ->
  saves env = false ->
  exists e,
    save_error env = Some e /\
    fst (Start env m foreground ticks s) = Returned (Some e) /\
    stdout (snd (Start env m foreground ticks s)) = stdout s /\
    snd (Start env m foreground ticks s) =
      snd (saveState env m (started_of env m w) s).
Proof.
  intros Hload Hfree Hfail.
  destruct (saveState_fails env m (started_of env m w) s Hfail) as [e He].
  exists e.
  rewrite (Start_proceeds env m foreground ticks s w Hload
             (not_live_running env w Hfree)).
  pose proof (saveState_stdout env m (started_of env m w) s) as Hout.
  pose proof (saveState_error env m (started_of env m w) s) as Herr.
  destruct (saveState env m (started_of env m w) s) as [[e' |] s1];
    simpl in *; [| discriminate He].
  inversion He; subst e'. repeat split; auto.
Qed.

Lemma Start_save_fails_witness :
  exists e,
    save_error (Sample.env_full 2000) = Some e /\
    fst (Start (Sample.env_full 2000) Sample.m true [Sample.env 2030] Sample.fresh) =
      Returned (Some e) /\
    stdout (snd (Start (Sample.env_full 2000) Sample.m true [Sample.env 2030]
                   Sample.fresh)) = stdout Sample.fresh /\
    snd (Start (Sample.env_full 2000) Sample.m true [Sample.env 2030] Sample.fresh) =
      snd (saveState (Sample.env_full 2000) Sample.m
             (started_of (Sample.env_full 2000) Sample.m
                (mkWitness "gastown" StateStopped 0 None [] None zeroStats))
             Sample.fresh).
Proof.
  apply (Start_save_fails (Sample.env_full 2000) Sample.m true [Sample.env 2030]
           Sample.fresh
           (mkWitness "gastown" StateStopped 0 None [] None zeroStats)).
  - reflexivity.
  - intros [Hrun _]. discriminate Hrun.
  - reflexivity.
Defined.

(** X18.  Starting twice: with a working disk a second [Start] is not
    refused, whoever made the first one and whether or not that process is
    still there.  It returns no error and rewrites the record: the file then
    carries the second call's clock reading as [StartedAt] and the second
    caller's pid, and the first [StartedAt] is gone. *)
Theorem Start_twice env env' m s w :
  loadState m s = inr w ->
  saves env = true ->
  saves env' = true ->
  let s1 := snd (Start env m false [] s) in
  let s2 := snd (Start env' m false [] s1) in
  fst (Start env m false [] s) = Returned None /\
  fst (Start env' m false [] s1) = Returned None /\
  persisted s1 =
    Some (mkWitness (RigName w) StateRunning (os_Getpid env)
                    (Some (time_Now env)) (Polecats (rig m))
                    (LastCheckAt w) (Stats w)) /\
  persisted s2 =
    Some (mkWitness (RigName w) StateRunning (os_Getpid env')
                    (Some (time_Now env')) (Polecats (rig m))
                    (LastCheckAt w) (Stats w)).
Proof.
  intros Hload Hsave Hsave' s1 s2.
  assert (Hfree : forall e r,
            is_running r && (0 <? PID r) && processExists e (PID r) = false).
  { intros e r. rewrite processExists_never. apply andb_false_r. }
  assert (HS : Start env m false [] s =
               (Returned None, saved (started_of env m w) s)).
  { rewrite (Start_proceeds env m false [] s w Hload (Hfree env w)).
    rewrite (saveState_saves env m _ s Hsave). reflexivity. }
  assert (HS' : Start env' m false [] (saved (started_of env m w) s) =
                (Returned None,
                 saved (started_of env' m (started_of env m w))
                       (saved (started_of env m w) s))).
  { rewrite (Start_proceeds env' m false [] _ (started_of env m w)
               (load_saved m _ s) (Hfree env' _)).
    rewrite (saveState_saves env' m _ _ Hsave'). reflexivity. }
  unfold s2, s1. rewrite HS. simpl. rewrite HS'. repeat split.
Qed.

Lemma Start_twice_witness :
  let s1 := snd (Start (Sample.env 2000) Sample.m false [] Sample.fresh) in
  let s2 := snd (Start (Sample.env 2500) Sample.m false [] s1) in
  fst (Start (Sample.env 2000) Sample.m false [] Sample.fresh) = Returned None /\
  fst (Start (Sample.env 2500) Sample.m false [] s1) = Returned None /\
  persisted s1 =
    Some (mkWitness "gastown" StateRunning 4242 (Some 2000) ["Toast"; "Nux"]
                    None zeroStats) /\
  persisted s2 =
    Some (mkWitness "gastown" StateRunning 4242 (Some 2500) ["Toast"; "Nux"]
                    None zeroStats).
Proof.
  apply (Start_twice (Sample.env 2000) (Sample.env 2500) Sample.m Sample.fresh
           (mkWitness "gastown" StateStopped 0 None [] None zeroStats));
    reflexivity.
Defined.

(** X19.  Start then stop: after a background [Start] and a [Stop], both
    with a working disk, the file holds a Stopped record with pid 0 that
    still carries the time of that start, the roster as of that start and
    the counters as first loaded.  A [Stop] from the process that started
    sends no signal; from another process it interrupts the starter, when
    [os.FindProcess] finds it. *)
Theorem Start_then_Stop env env' m s w :
  loadState m s = inr w ->
  ~ (State w = StateRunning /\ 0 < PID w /\ processExists env (PID w) = true) ->
  saves env = true ->
  saves env' = true ->
  let s1 := snd (Start env m false [] s) in
  let s2 := snd (Stop env' m s1) in
  fst (Stop env' m s1) = None /\
  persisted s2 =
    Some (mkWitness (RigName w) StateStopped 0 (Some (time_Now env))
                    (Polecats (rig m)) (LastCheckAt w) (Stats w)) /\
  interrupts s2 =
    (interrupts s ++
       (if (0 <? os_Getpid env) && negb (os_Getpid env =? os_Getpid env')
           && os_FindProcess env' (os_Getpid env)
        then [os_Getpid env] else []))%list /\
  (os_Getpid env' = os_Getpid env -> interrupts s2 = interrupts s).
Proof.
  intros Hload Hfree Hsave Hsave' s1 s2.
  assert (HS : Start env m false [] s =
               (Returned None, saved (started_of env m w) s)).
  { rewrite (Start_proceeds env m false [] s w Hload
               (not_live_running env w Hfree)).
    rewrite (saveState_saves env m _ s Hsave). reflexivity. }
  assert (Hs1 : s1 = saved (started_of env m w) s) by (unfold s1; rewrite HS; reflexivity).
  destruct (Stop_of_running env' m s1 (started_of env m w))
    as [s0 [Hfile [Hdir [Hout [Hsig HStop]]]]].
  { rewrite Hs1. reflexivity. }
  { reflexivity. }
  unfold s2. rewrite HStop, (saveState_saves env' m _ s0 Hsave'). simpl.
  assert (Hint : interrupts s0 =
                 (interrupts s ++
                  (if (0 <? os_Getpid env) && negb (os_Getpid env =? os_Getpid env')
                      && os_FindProcess env' (os_Getpid env)
                   then [os_Getpid env] else []))%list).
  { rewrite Hsig, Hs1. reflexivity. }
  repeat split; try assumption.
  intros Hsame. rewrite Hint, Hsame, Z.eqb_refl, andb_false_r. simpl.
  apply app_nil_r.
Qed.

Lemma Start_then_Stop_witness :
  let s1 := snd (Start (Sample.env 2000) Sample.m false [] Sample.fresh) in
  let s2 := snd (Stop (Sample.env 2100) Sample.m s1) in
  fst (Stop (Sample.env 2100) Sample.m s1) = None /\
  persisted s2 =
    Some (mkWitness "gastown" StateStopped 0 (Some 2000) ["Toast"; "Nux"] None
                    zeroStats) /\
  interrupts s2 =
    (interrupts Sample.fresh ++
       (if (0 <? 4242) && negb (4242 =? 4242)
           && os_FindProcess (Sample.env 2100) 4242
        then [4242] else []))%list /\
  (os_Getpid (Sample.env 2100) = os_Getpid (Sample.env 2000) ->
   interrupts s2 = interrupts Sample.fresh).
Proof.
  apply (Start_then_Stop (Sample.env 2000) (Sample.env 2100) Sample.m
           Sample.fresh
           (mkWitness "gastown" StateStopped 0 None [] None zeroStats)).
  - reflexivity.
  - intros [Hrun _]. discriminate Hrun.
  - reflexivity.
  - reflexivity.
Defined.

(** ** The loop, tick after tick *)

Lemma for_select_step m env ticks w s :
  for_select (run_body m) (env :: ticks) w s =
    for_select (run_body m) ticks (checked (time_Now env) w)
      (match save_error env with
       | Some e => print (report e) (snd (saveState env m (checked (time_Now env) w) s))
       | None => snd (saveState env m (checked (time_Now env) w) s)
       end).
Proof.
  cbn [for_select]. unfold run_body at 1.
  rewrite healthCheck_eq, saveState_error.
  destruct (save_error env); reflexivity.
Qed.

Lemma for_select_stdout m ticks :
  forall w s,
    stdout (snd (for_select (run_body m) ticks w s)) =
      (stdout s ++ reports ticks)%list.
Proof.
  induction ticks as [| env ticks IH]; intros w s.
  - simpl. symmetry. apply app_nil_r.
  - rewrite for_select_step, IH. unfold reports. cbn [flat_map].
    destruct (save_error env) as [e |]; simpl.
    + rewrite saveState_stdout, <- app_assoc. reflexivity.
    + rewrite saveState_stdout. reflexivity.
Qed.

Lemma for_select_interrupts m ticks :
  forall w s,
    interrupts (snd (for_select (run_body m) ticks w s)) = interrupts s.
Proof.
  induction ticks as [| env ticks IH]; intros w s.
  - reflexivity.
  - rewrite for_select_step, IH.
    destruct (save_error env); simpl; apply saveState_interrupts.
Qed.

(** X20.  What a foreground run prints: the two banner lines once, on entry,
    then one "Health check error" line for each tick whose save failed, in
    the order of the ticks, and nothing else. *)
Theorem run_prints m w ticks s :
  stdout (snd (run m w ticks s)) = (stdout s ++ banner ++ reports ticks)%list.
Proof.
  unfold run. rewrite for_select_stdout. simpl.
  rewrite <- !app_assoc. reflexivity.
Qed.

(** X21.  The file catches up: after a tick whose save goes through, the
    state file holds exactly the record the loop has in memory, so the
    checks counted by earlier ticks whose save failed are in it too. *)
Theorem run_catches_up m w ticks env s :
  saves env = true ->
  fst (run m w (ticks ++ [env]) s) = Blocked (checked_all (ticks ++ [env]) w) /\
  persisted (snd (run m w (ticks ++ [env]) s)) =
    Some (checked_all (ticks ++ [env]) w).
Proof.
  intros Hsave. split.
  - unfold run. apply for_select_blocked.
  - rewrite run_app.
    assert (Hblk : fst (run m w ticks s) = Blocked (checked_all ticks w))
      by (unfold run; apply for_select_blocked).
    destruct (run m w ticks s) as [o s1]. simpl in Hblk. subst o.
    rewrite for_select_step.
    apply saves_save_error in Hsave as Hnone. rewrite Hnone.
    rewrite (saveState_saves env m _ s1 Hsave). simpl.
    unfold checked_all. rewrite fold_left_app. reflexivity.
Qed.

Lemma run_catches_up_witness :
  persisted (snd (run Sample.m (Sample.running 4242)
                    ([Sample.env 2030; Sample.env_full 2060] ++ [Sample.env 2090])
                    (Sample.on_disk (Sample.running 4242)))) =
    Some (mkWitness "gastown" StateRunning 4242 (Some 1000) ["Rictus"] (Some 2090)
                    (mkStats 10 0 0 6 0)).
Proof.
  apply (run_catches_up Sample.m (Sample.running 4242)
           [Sample.env 2030; Sample.env_full 2060] (Sample.env 2090)
           (Sample.on_disk (Sample.running 4242))).
  reflexivity.
Defined.

Lemma last_cons_default {A} (a d : A) l : last (a :: l) d = last l a.
Proof.
  revert a d. induction l as [| b l IH]; intros a d; [reflexivity |].
  change (last (a :: b :: l) d) with (last (b :: l) d).
  rewrite (IH b d), (IH b a). reflexivity.
Qed.

Lemma checked_all_fields ticks :
  forall w,
    RigName (checked_all ticks w) = RigName w /\
    State (checked_all ticks w) = State w /\
    PID (checked_all ticks w) = PID w /\
    StartedAt (checked_all ticks w) = StartedAt w /\
    MonitoredPolecats (checked_all ticks w) = MonitoredPolecats w /\
    TotalNudges (Stats (checked_all ticks w)) = TotalNudges (Stats w) /\
    TotalEscalations (Stats (checked_all ticks w)) = TotalEscalations (Stats w) /\
    TodayNudges (Stats (checked_all ticks w)) = TodayNudges (Stats w) /\
    LastCheckAt (checked_all ticks w) =
      last (map (fun env => Some (time_Now env)) ticks) (LastCheckAt w).
Proof.
  induction ticks as [| env ticks IH]; intros w.
  - simpl. repeat split.
  - cbn [checked_all fold_left map].
    fold (checked_all ticks (checked (time_Now env) w)).
    rewrite last_cons_default.
    destruct (IH (checked (time_Now env) w))
      as [H1 [H2 [H3 [H4 [H5 [H6 [H7 [H8 H9]]]]]]]].
    rewrite H1, H2, H3, H4, H5, H6, H7, H8, H9. repeat split.
Qed.

(** X22.  What the loop holds after [n] ticks, as long as the counters do
    not overflow: both check counters are up by [n], [LastCheckAt] is the
    clock reading of the last tick, and nothing else has moved.  In
    particular the roster is the one taken at start: the loop never looks at
    the rig again. *)
Theorem run_in_memory m w ticks s :
  room_for (Z.of_nat (length ticks)) (Stats w) ->
  exists w',
    fst (run m w ticks s) = Blocked w' /\
    Stats w' = more_checks (Z.of_nat (length ticks)) (Stats w) /\
    LastCheckAt w' =
      last (map (fun env => Some (time_Now env)) ticks) (LastCheckAt w) /\
    RigName w' = RigName w /\ State w' = State w /\ PID w' = PID w /\
    StartedAt w' = StartedAt w /\
    MonitoredPolecats w' = MonitoredPolecats w.
Proof.
  intros Hroom. exists (checked_all ticks w).
  destruct (checked_all_fields ticks w)
    as [H1 [H2 [H3 [H4 [H5 [_ [_ [_ H9]]]]]]]].
  repeat split; try assumption.
  - unfold run. apply for_select_blocked.
  - apply (checked_all_stats ticks w w 0); [lia | exact Hroom |].
    symmetry. apply more_checks_0.
Qed.

Lemma run_in_memory_witness :
  exists w',
    fst (run Sample.m (Sample.running 4242) [Sample.env 2030; Sample.env_full 2060]
             (Sample.on_disk (Sample.running 4242))) = Blocked w' /\
    Stats w' = more_checks 2 (mkStats 7 0 0 3 0) /\
    LastCheckAt w' = Some 2060 /\
    RigName w' = "gastown" /\ State w' = StateRunning /\ PID w' = 4242 /\
    StartedAt w' = Some 1000 /\
    MonitoredPolecats w' = ["Rictus"].
Proof.
  apply (run_in_memory Sample.m (Sample.running 4242)
           [Sample.env 2030; Sample.env_full 2060]
           (Sample.on_disk (Sample.running 4242))).
  repeat split; vm_compute; discriminate.
Defined.

(** ** What the controller writes, prints and signals *)

Lemma saveState_writes env m w s pid :
  written_by pid w ->
  let s' := snd (saveState env m w s) in
  state_file s' = state_file s \/
  state_file s' = Data (Malformed unexpected_end) \/
  exists w1, persisted s' = Some w1 /\ written_by pid w1.
Proof.
  intros Hw s'. unfold s'.
  destruct (saveState_file env m w s) as [Hf | [Hf | Hf]]; auto.
  right. right. exists w. split; [apply persisted_Some; exact Hf | exact Hw].
Qed.

Lemma for_select_writes m pid f0 ticks :
  forall w s,
    State w = StateRunning -> PID w = pid ->
    (state_file s = f0 \/
     state_file s = Data (Malformed unexpected_end) \/
     exists w1, persisted s = Some w1 /\ written_by pid w1) ->
    let s' := snd (for_select (run_body m) ticks w s) in
    state_file s' = f0 \/
    state_file s' = Data (Malformed unexpected_end) \/
    exists w1, persisted s' = Some w1 /\ written_by pid w1.
Proof.
  induction ticks as [| env ticks IH]; intros w s Hrun Hpid Hs; [exact Hs |].
  cbv zeta. rewrite for_select_step. apply IH; [exact Hrun | exact Hpid |].
  assert (Hw' : written_by pid (checked (time_Now env) w))
    by (right; split; assumption).
  assert (Hsaved :
    state_file (snd (saveState env m (checked (time_Now env) w) s)) = f0 \/
    state_file (snd (saveState env m (checked (time_Now env) w) s)) =
      Data (Malformed unexpected_end) \/
    exists w1, persisted (snd (saveState env m (checked (time_Now env) w) s)) =
                 Some w1 /\ written_by pid w1).
  { destruct (saveState_writes env m (checked (time_Now env) w) s pid Hw')
      as [Hf | Hf].
    - destruct Hs as [H | [H | [w1 [H Hw1]]]].
      + left. rewrite Hf. exact H.
      + right. left. rewrite Hf. exact H.
      + right. right. exists w1. split; [| exact Hw1].
        apply persisted_Some. rewrite Hf. apply persisted_Some. exact H.
    - right. exact Hf. }
  destruct (save_error env); exact Hsaved.
Qed.

(** X23.  Whatever an invocation does to the state file, it leaves it as it
    was, or cut off by a failed write, or holding one of two shapes of
    record: Stopped with pid 0, or Running with the pid of the invoking
    process.  No operation writes Paused, and none removes the file. *)
Theorem exec_writes m env op s :
  let s' := exec m env op s in
  state_file s' = state_file s \/
  state_file s' = Data (Malformed unexpected_end) \/
  exists w1, persisted s' = Some w1 /\ written_by (os_Getpid env) w1.
Proof.
  cbv zeta.
  destruct (loadState m s) as [e | w] eqn:Hload.
  - rewrite (exec_load_fails m env op s e Hload). left. reflexivity.
  - assert (Hstopped : written_by (os_Getpid env) (stopped_of w))
      by (left; split; reflexivity).
    assert (Hstarted : written_by (os_Getpid env) (started_of env m w))
      by (right; split; reflexivity).
    destruct op as [| foreground ticks |]; cbn [exec].
    + destruct (Status_world env m s w Hload) as [H | H]; rewrite H.
      * left. reflexivity.
      * apply saveState_writes. exact Hstopped.
    + destruct (Start_world env m foreground ticks s w Hload)
        as [H | [H | [_ H]]]; rewrite H.
      * left. reflexivity.
      * apply saveState_writes. exact Hstarted.
      * unfold run.
        apply (for_select_writes m (os_Getpid env) (state_file s));
          try reflexivity.
        apply (saveState_writes env m _ s _ Hstarted).
    + destruct (Stop_world env m s w Hload) as [H | [s0 [Hfile H]]]; rewrite H.
      * left. reflexivity.
      * rewrite <- Hfile. apply saveState_writes. exact Hstopped.
Qed.

Lemma Stop_stdout env m s : stdout (snd (Stop env m s)) = stdout s.
Proof.
  unfold Stop.
  destruct (loadState m s) as [e | w]; [reflexivity |].
  destruct (negb (is_running w)); [reflexivity |].
  rewrite saveState_stdout.
  destruct ((0 <? PID w) && negb (PID w =? os_Getpid env)); [| reflexivity].
  destruct (os_FindProcess env (PID w)); reflexivity.
Qed.

Lemma Start_background_stdout env m ticks s :
  stdout (snd (Start env m false ticks s)) = stdout s.
Proof.
  unfold Start.
  destruct (loadState m s) as [e | w]; [reflexivity |].
  destruct (is_running w && (0 <? PID w) && processExists env (PID w));
    [reflexivity |].
  pose proof (saveState_stdout env m (started_of env m w) s) as Hout.
  change (set_MonitoredPolecats _ (set_PID _ (set_StartedAt _ (set_State _ w))))
    with (started_of env m w).
  destruct (saveState env m (started_of env m w) s) as [[e |] s1]; exact Hout.
Qed.

Lemma Start_interrupts env m foreground ticks s :
  interrupts (snd (Start env m foreground ticks s)) = interrupts s.
Proof.
  destruct (loadState m s) as [e | w] eqn:Hload.
  - unfold Start. rewrite Hload. reflexivity.
  - destruct (Start_world env m foreground ticks s w Hload)
      as [H | [H | [_ H]]]; rewrite H.
    + reflexivity.
    + apply saveState_interrupts.
    + unfold run. rewrite for_select_interrupts. simpl.
      apply saveState_interrupts.
Qed.

(** X24.  Only [Stop] sends signals and only a foreground start prints:
    [Status] and [Start] leave the signals as they are, [Status], [Stop] and
    a background [Start] leave standard output as it is. *)
Theorem quiet_operations env m s :
  stdout (snd (Status env m s)) = stdout s /\
  interrupts (snd (Status env m s)) = interrupts s /\
  stdout (snd (Stop env m s)) = stdout s /\
  (forall ticks, stdout (snd (Start env m false ticks s)) = stdout s) /\
  (forall foreground ticks,
     interrupts (snd (Start env m foreground ticks s)) = interrupts s).
Proof.
  assert (HStatus : stdout (snd (Status env m s)) = stdout s /\
                    interrupts (snd (Status env m s)) = interrupts s).
  { destruct (loadState m s) as [e | w] eqn:Hload.
    - unfold Status. rewrite Hload. split; reflexivity.
    - destruct (Status_world env m s w Hload) as [H | H]; rewrite H.
      + split; reflexivity.
      + split; [apply saveState_stdout | apply saveState_interrupts]. }
  destruct HStatus as [Hout Hsig].
  split; [exact Hout |]. split; [exact Hsig |].
  split; [apply Stop_stdout |].
  split; [intros ticks; apply Start_background_stdout |].
  intros foreground ticks. apply Start_interrupts.
Qed.

(** * Properties of version/stale.go *)

(** ** Strings *)

Lemma substring_0_length s : substring 0 (String.length s) s = s.
Proof. induction s as [| c s IH]; simpl; [reflexivity | rewrite IH; reflexivity]. Qed.

Lemma length_substring_0 n s :
  (n <= String.length s)%nat -> String.length (substring 0 n s) = n.
Proof.
  revert n. induction s as [| c s IH]; intros [| n] H; simpl in *;
    try reflexivity; try lia.
  rewrite IH by lia. reflexivity.
Qed.

Lemma prefix_substring_0 n s : String.prefix (substring 0 n s) s = true.
Proof.
  revert n. induction s as [| c s IH]; intros [| n]; simpl; try reflexivity.
  destruct (Ascii.ascii_dec c c) as [_ | Hneq]; [apply IH | contradiction].
Qed.

Lemma prefix_length a b :
  String.prefix a b = true -> (String.length a <= String.length b)%nat.
Proof.
  revert b. induction a as [| c a IH]; intros [| d b] H; simpl in *;
    try lia; try discriminate.
  destruct (Ascii.ascii_dec c d); [| discriminate].
  specialize (IH b H). lia.
Qed.

Lemma prefix_same_length a b :
  String.prefix a b = true -> String.length a = String.length b -> a = b.
Proof.
  revert b. induction a as [| c a IH]; intros [| d b] H Hlen; simpl in *;
    try reflexivity; try discriminate.
  destruct (Ascii.ascii_dec c d) as [-> |]; [| discriminate].
  f_equal. apply IH; [exact H | lia].
Qed.

Lemma prefix_refl a : String.prefix a a = true.
Proof.
  rewrite <- (substring_0_length a) at 1. apply prefix_substring_0.
Qed.

Lemma prefix_trans a b c :
  String.prefix a b = true -> String.prefix b c = true -> String.prefix a c = true.
Proof.
  revert b c. induction a as [| x a IH]; intros [| y b] [| z c] Hab Hbc;
    simpl in *; try reflexivity; try discriminate.
  destruct (Ascii.ascii_dec x y) as [-> |]; [| discriminate].
  destruct (Ascii.ascii_dec y z) as [-> |]; [| discriminate].
  destruct (Ascii.ascii_dec z z); [| contradiction].
  exact (IH b c Hab Hbc).
Qed.

(** The disjunction [commitsMatch] computes, when [a] is the shorter. *)
Lemma match_shorter a b :
  (String.length a <= String.length b)%nat ->
  Version.strings_HasPrefix a (substring 0 (String.length a) b)
  || Version.strings_HasPrefix b (substring 0 (String.length a) a)
  = String.prefix a b.
Proof.
  intros Hlen. unfold Version.strings_HasPrefix.
  rewrite substring_0_length.
  destruct (String.prefix a b) eqn:Hab; [apply orb_true_r |].
  rewrite orb_false_r.
  destruct (String.prefix (substring 0 (String.length a) b) a) eqn:Hcut;
    [| reflexivity].
  apply prefix_same_length in Hcut.
  - rewrite <- Hcut, prefix_substring_0 in Hab. discriminate Hab.
  - apply length_substring_0. exact Hlen.
Qed.

Lemma commitsMatch_cases a b :
  Version.commitsMatch a b =
    if (String.length b <? String.length a)%nat
    then (if (String.length b <? 7)%nat then false else String.prefix b a)
    else (if (String.length a <? 7)%nat then false else String.prefix a b).
Proof.
  unfold Version.commitsMatch.
  destruct (String.length b <? String.length a)%nat eqn:Hlt.
  - destruct (String.length b <? 7)%nat; [reflexivity |].
    rewrite orb_comm. apply match_shorter.
    apply Nat.ltb_lt in Hlt. lia.
  - destruct (String.length a <? 7)%nat; [reflexivity |].
    apply match_shorter. apply Nat.ltb_ge in Hlt. exact Hlt.
Qed.

Lemma prefix_same_length_sym a b :
  String.length a = String.length b -> String.prefix a b = String.prefix b a.
Proof.
  intros Hlen.
  destruct (String.prefix a b) eqn:Hab.
  - rewrite (prefix_same_length a b Hab Hlen). symmetry. apply prefix_refl.
  - destruct (String.prefix b a) eqn:Hba; [| reflexivity].
    rewrite (prefix_same_length b a Hba (eq_sym Hlen)), prefix_refl in Hab.
    discriminate Hab.
Qed.

(** ** ShortCommit *)

Lemma ShortCommit_length hash :
  String.length (Version.ShortCommit hash) = Nat.min 12 (String.length hash).
Proof.
  unfold Version.ShortCommit.
  destruct (12 <? String.length hash)%nat eqn:Hlong.
  - apply Nat.ltb_lt in Hlong. rewrite length_substring_0 by lia. lia.
  - apply Nat.ltb_ge in Hlong. lia.
Qed.

Lemma ShortCommit_is_prefix hash :
  String.prefix (Version.ShortCommit hash) hash = true.
Proof.
  unfold Version.ShortCommit.
  destruct (12 <? String.length hash)%nat;
    [apply prefix_substring_0 | apply prefix_refl].
Qed.

(** X1.  [ShortCommit] returns the first 12 bytes of the hash, or all of it
    when it has no more: the result is a prefix of the hash, of length
    [min 12 (len hash)], and shortening again changes nothing. *)
Theorem ShortCommit_prefix hash :
  String.prefix (Version.ShortCommit hash) hash = true /\
  String.length (Version.ShortCommit hash) = Nat.min 12 (String.length hash) /\
  Version.ShortCommit (Version.ShortCommit hash) = Version.ShortCommit hash.
Proof.
  repeat split.
  - apply ShortCommit_is_prefix.
  - apply ShortCommit_length.
  - unfold Version.ShortCommit at 1.
    replace (12 <? String.length (Version.ShortCommit hash))%nat with false;
      [reflexivity |].
    symmetry. apply Nat.ltb_ge. rewrite ShortCommit_length. lia.
Qed.

(** ** commitsMatch *)

Lemma commitsMatch_elim a b :
  Version.commitsMatch a b = true ->
  (7 <= String.length a)%nat /\ (7 <= String.length b)%nat /\
  (String.prefix a b = true \/ String.prefix b a = true).
Proof.
  rewrite commitsMatch_cases.
  destruct (Nat.ltb_spec (String.length b) (String.length a)) as [Hlt | Hge].
  - destruct (Nat.ltb_spec (String.length b) 7) as [H7 | H7]; [discriminate |].
    intros H. repeat split; try lia. right. exact H.
  - destruct (Nat.ltb_spec (String.length a) 7) as [H7 | H7]; [discriminate |].
    intros H. repeat split; try lia. left. exact H.
Qed.

Lemma commitsMatch_intro a b :
  (7 <= String.length a)%nat -> (7 <= String.length b)%nat ->
  String.prefix a b = true \/ String.prefix b a = true ->
  Version.commitsMatch a b = true.
Proof.
  intros Ha Hb Hp. rewrite commitsMatch_cases.
  destruct (Nat.ltb_spec (String.length b) (String.length a)) as [Hlt | Hge].
  - destruct (Nat.ltb_spec (String.length b) 7) as [H7 | H7]; [lia |].
    destruct Hp as [H | H]; [| exact H].
    apply prefix_length in H. lia.
  - destruct (Nat.ltb_spec (String.length a) 7) as [H7 | H7]; [lia |].
    destruct Hp as [H | H]; [exact H |].
    pose proof (prefix_length _ _ H) as Hle.
    rewrite (prefix_same_length b a H) by lia. apply prefix_refl.
Qed.

(** X2.  Two hashes match exactly when both have at least 7 bytes and one is
    a prefix of the other. *)
Theorem commitsMatch_iff a b :
  Version.commitsMatch a b = true <->
  (7 <= String.length a)%nat /\ (7 <= String.length b)%nat /\
  (String.prefix a b = true \/ String.prefix b a = true).
Proof.
  split.
  - apply commitsMatch_elim.
  - intros [Ha [Hb Hp]]. apply commitsMatch_intro; assumption.
Qed.

(** X3.  The order of the two hashes does not matter. *)
Theorem commitsMatch_sym a b :
  Version.commitsMatch a b = Version.commitsMatch b a.
Proof.
  rewrite (commitsMatch_cases a b), (commitsMatch_cases b a).
  destruct (Nat.ltb_spec (String.length b) (String.length a)) as [Hba | Hba];
    destruct (Nat.ltb_spec (String.length a) (String.length b)) as [Hab | Hab];
    try lia; try reflexivity.
  assert (Heq : String.length a = String.length b) by lia.
  rewrite Heq, (prefix_same_length_sym a b Heq). reflexivity.
Qed.

(** X4.  A hash of at least 7 bytes matches its own short form, and a hash
    shorter than 7 bytes matches nothing, itself included. *)
Theorem commitsMatch_ShortCommit hash :
  ((7 <= String.length hash)%nat ->
   Version.commitsMatch hash (Version.ShortCommit hash) = true) /\
  ((String.length hash < 7)%nat ->
   forall other, Version.commitsMatch hash other = false /\
                 Version.commitsMatch other hash = false).
Proof.
  split.
  - intros H7.
    pose proof (ShortCommit_length hash). pose proof (ShortCommit_is_prefix hash).
    apply commitsMatch_intro; [lia | lia | auto].
  - intros Hshort other. split.
    + destruct (Version.commitsMatch hash other) eqn:Hm; [| reflexivity].
      apply commitsMatch_elim in Hm. lia.
    + destruct (Version.commitsMatch other hash) eqn:Hm; [| reflexivity].
      apply commitsMatch_elim in Hm. lia.
Qed.

Lemma commitsMatch_ShortCommit_witness :
  Version.commitsMatch Version.full (Version.ShortCommit Version.full) = true /\
  Version.commitsMatch "abc123" "abc123" = false.
Proof.
  split.
  - apply (proj1 (commitsMatch_ShortCommit Version.full)). vm_compute. lia.
  - apply (proj2 (commitsMatch_ShortCommit "abc123")). vm_compute. lia.
Defined.

(** ** resolveCommitHash *)





(** ** CheckStaleBinary *)

Lemma CheckStaleBinary_with_head h Commit repoDir output :
  Version.resolveCommitHash h Commit <> "" ->
  Version.git_rev_parse_HEAD h repoDir = inr output ->
  let bin := Version.resolveCommitHash h Commit in
  let head := Version.strings_TrimSpace h output in
  Version.CheckStaleBinary h Commit repoDir =
    if Version.commitsMatch bin head then Version.mkInfo false bin head 0 None
    else
      match Version.git_rev_list_count h repoDir (bin ++ "..HEAD") with
      | inr countOutput =>
          match Version.fmt_Sscanf_d h (Version.strings_TrimSpace h countOutput) with
          | Some n => Version.mkInfo true bin head n None
          | None => Version.mkInfo true bin head 0 None
          end
      | inl _ => Version.mkInfo true bin head 0 None
      end.
Proof.
  intros Hbin Hhead bin head. unfold Version.CheckStaleBinary. simpl.
  fold bin. apply String.eqb_neq in Hbin. fold bin in Hbin. rewrite Hbin.
  rewrite Hhead. fold head.
  destruct (Version.commitsMatch bin head); simpl; [reflexivity |].
  destruct (Version.git_rev_list_count h repoDir (bin ++ "..HEAD"));
    [reflexivity |].
  destruct (Version.fmt_Sscanf_d h _); reflexivity.
Qed.

(** X6.  A check that ends with an error never calls the binary stale: the
    error is either the missing binary commit or the failure of
    [git rev-parse HEAD], and then [IsStale] is false, [CommitsBehind] is 0
    and [RepoCommit] is empty. *)
Theorem CheckStaleBinary_error h Commit repoDir e :
  Version.Error (Version.CheckStaleBinary h Commit repoDir) = Some e ->
  Version.IsStale (Version.CheckStaleBinary h Commit repoDir) = false /\
  Version.CommitsBehind (Version.CheckStaleBinary h Commit repoDir) = 0 /\
  Version.RepoCommit (Version.CheckStaleBinary h Commit repoDir) = "" /\
  ((Version.resolveCommitHash h Commit = "" /\
    e = SysError "cannot determine binary commit (dev build?)") \/
   (exists err, Version.git_rev_parse_HEAD h repoDir = inl err /\
                e = SysError ("cannot get repo HEAD: " ++ Error err))).
Proof.
  destruct (String.eqb_spec (Version.resolveCommitHash h Commit) "")
    as [Hbin | Hbin].
  - unfold Version.CheckStaleBinary. simpl. rewrite Hbin. simpl.
    intros He. inversion He. repeat split. left. split; reflexivity.
  - destruct (Version.git_rev_parse_HEAD h repoDir) as [err | output] eqn:Hhead.
    + unfold Version.CheckStaleBinary. simpl.
      apply String.eqb_neq in Hbin. rewrite Hbin, Hhead. simpl.
      intros He. inversion He. repeat split. right. exists err.
      split; reflexivity.
    + rewrite (CheckStaleBinary_with_head h Commit repoDir output Hbin Hhead).
      destruct (Version.commitsMatch _ _); [discriminate |].
      destruct (Version.git_rev_list_count h repoDir _); [discriminate |].
      destruct (Version.fmt_Sscanf_d h _); discriminate.
Qed.

Lemma CheckStaleBinary_error_witness :
  let i := Version.CheckStaleBinary Version.offline Version.full "/nowhere" in
  Version.IsStale i = false /\
  Version.CommitsBehind i = 0 /\
  Version.RepoCommit i = "" /\
  ((Version.resolveCommitHash Version.offline Version.full = "" /\
    SysError "cannot get repo HEAD: exit status 128" =
      SysError "cannot determine binary commit (dev build?)") \/
   (exists err, Version.git_rev_parse_HEAD Version.offline "/nowhere" = inl err /\
                SysError "cannot get repo HEAD: exit status 128" =
                  SysError ("cannot get repo HEAD: " ++ Error err))).
Proof.
  apply (CheckStaleBinary_error Version.offline Version.full "/nowhere"
           (SysError "cannot get repo HEAD: exit status 128")).
  reflexivity.
Defined.

(** X7.  When the binary's commit is known and [git rev-parse HEAD] answers,
    the check reports no error, and the binary counts as up to date exactly
    when both hashes have at least 7 bytes and one is a prefix of the other;
    an up-to-date binary is 0 commits behind.  A binary commit shorter than
    7 bytes is therefore always stale. *)
Theorem CheckStaleBinary_verdict h Commit repoDir output :
  Version.resolveCommitHash h Commit <> "" ->
  Version.git_rev_parse_HEAD h repoDir = inr output ->
  let bin := Version.resolveCommitHash h Commit in
  let head := Version.strings_TrimSpace h output in
  let i := Version.CheckStaleBinary h Commit repoDir in
  Version.Error i = None /\
  Version.BinaryCommit i = bin /\
  Version.RepoCommit i = head /\
  (Version.IsStale i = false <->
   (7 <= String.length bin)%nat /\ (7 <= String.length head)%nat /\
   (String.prefix bin head = true \/ String.prefix head bin = true)) /\
  (Version.IsStale i = false -> Version.CommitsBehind i = 0).
Proof.
  intros Hbin Hhead bin head i. unfold i.
  rewrite (CheckStaleBinary_with_head h Commit repoDir output Hbin Hhead).
  fold bin head.
  destruct (Version.commitsMatch bin head) eqn:Hm.
  - simpl. repeat split; try reflexivity;
      destruct (commitsMatch_elim bin head Hm) as [Ha [Hb Hp]]; assumption.
  - assert (Hno : ~ ((7 <= String.length bin)%nat /\
                     (7 <= String.length head)%nat /\
                     (String.prefix bin head = true \/
                      String.prefix head bin = true))).
    { intros [Ha [Hb Hp]].
      rewrite (commitsMatch_intro bin head Ha Hb Hp) in Hm. discriminate Hm. }
    destruct (Version.git_rev_list_count h repoDir (bin ++ "..HEAD"));
      [| destruct (Version.fmt_Sscanf_d h _)]; simpl;
      repeat split; try reflexivity; try discriminate;
      intros H; exfalso; apply Hno; exact H.
Qed.

Lemma CheckStaleBinary_verdict_witness :
  let h := Version.host Version.full in
  let bin := Version.resolveCommitHash h "abc1234def56" in
  let head := Version.strings_TrimSpace h Version.full in
  let i := Version.CheckStaleBinary h "abc1234def56" "/home/gus/gt/gastown" in
  Version.Error i = None /\
  Version.BinaryCommit i = bin /\
  Version.RepoCommit i = head /\
  (Version.IsStale i = false <->
   (7 <= String.length bin)%nat /\ (7 <= String.length head)%nat /\
   (String.prefix bin head = true \/ String.prefix head bin = true)) /\
  (Version.IsStale i = false -> Version.CommitsBehind i = 0).
Proof.
  apply (CheckStaleBinary_verdict (Version.host Version.full) "abc1234def56"
           "/home/gus/gt/gastown" Version.full).
  - discriminate.
  - reflexivity.
Defined.

(** X8.  A non-zero [CommitsBehind] is only ever reported for a stale
    binary, without error, and it is the number scanned from the output of
    [git rev-list --count <binary commit>..HEAD]. *)
Theorem CheckStaleBinary_behind h Commit repoDir :
  Version.CommitsBehind (Version.CheckStaleBinary h Commit repoDir) <> 0 ->
  let i := Version.CheckStaleBinary h Commit repoDir in
  Version.IsStale i = true /\
  Version.Error i = None /\
  exists countOutput,
    Version.git_rev_list_count h repoDir
      (Version.resolveCommitHash h Commit ++ "..HEAD") = inr countOutput /\
    Version.fmt_Sscanf_d h (Version.strings_TrimSpace h countOutput) =
      Some (Version.CommitsBehind i).
Proof.
  intros Hbehind i. unfold i. revert Hbehind.
  destruct (String.eqb_spec (Version.resolveCommitHash h Commit) "")
    as [Hbin | Hbin].
  - unfold Version.CheckStaleBinary. simpl. rewrite Hbin. simpl.
    intros H. contradiction.
  - destruct (Version.git_rev_parse_HEAD h repoDir) as [err | output] eqn:Hhead.
    + unfold Version.CheckStaleBinary. simpl.
      apply String.eqb_neq in Hbin. rewrite Hbin, Hhead. simpl.
      intros H. contradiction.
    + rewrite (CheckStaleBinary_with_head h Commit repoDir output Hbin Hhead).
      destruct (Version.commitsMatch _ _); [intros H; contradiction |].
      destruct (Version.git_rev_list_count h repoDir _) as [err | countOutput];
        [intros H; contradiction |].
      destruct (Version.fmt_Sscanf_d h _) as [n |] eqn:Hscan;
        [| intros H; contradiction].
      simpl. intros _. repeat split.
      exists countOutput. split; [reflexivity | exact Hscan].
Qed.

Lemma CheckStaleBinary_behind_witness :
  let i := Version.CheckStaleBinary (Version.host "0000000aaaaaaa") ""
             "/home/gus/gt/gastown" in
  Version.IsStale i = true /\
  Version.Error i = None /\
  exists countOutput,
    Version.git_rev_list_count (Version.host "0000000aaaaaaa") "/home/gus/gt/gastown"
      (Version.resolveCommitHash (Version.host "0000000aaaaaaa") "" ++ "..HEAD")
      = inr countOutput /\
    Version.fmt_Sscanf_d (Version.host "0000000aaaaaaa")
      (Version.strings_TrimSpace (Version.host "0000000aaaaaaa") countOutput) =
      Some (Version.CommitsBehind i).
Proof.
  apply (CheckStaleBinary_behind (Version.host "0000000aaaaaaa") ""
           "/home/gus/gt/gastown").
  discriminate.
Defined.

(** ** GetRepoRoot *)

Lemma first_candidate_Some h candidates c :
  Version.first_candidate h candidates = Some c ->
  In c candidates /\ Version.isGitRepo h c = true /\
  Version.hasGastownMarker h c = true.
Proof.
  induction candidates as [| c0 rest IH]; simpl; [discriminate |].
  destruct (Version.isGitRepo h c0 && Version.hasGastownMarker h c0) eqn:Hok.
  - intros H. inversion H; subst c0.
    apply andb_true_iff in Hok. tauto.
  - intros H. destruct (IH H) as [Hin Hrest]. tauto.
Qed.

(** X9.  Every root [GetRepoRoot] returns has the [cmd/gt] marker, and it is
    [GT_ROOT], one of the four directories under [HOME], or the top level
    git reports for the current directory; the first two kinds have also
    passed the git check.  The only error is "cannot locate". *)
Theorem GetRepoRoot_marked h :
  match Version.GetRepoRoot h with
  | inr root =>
      Version.hasGastownMarker h root = true /\
      ((root = Version.os_Getenv h "GT_ROOT" /\ root <> "" /\
        Version.isGitRepo h root = true) \/
       (In root (Version.candidates_of (Version.os_Getenv h "HOME")) /\
        Version.os_Getenv h "HOME" <> "" /\ Version.isGitRepo h root = true) \/
       (exists output,
          Version.git_rev_parse_show_toplevel h = inr output /\
          root = Version.strings_TrimSpace h output))
  | inl e => e = Version.cannot_locate
  end.
Proof.
  assert (Htail :
    match
      match Version.git_rev_parse_show_toplevel h with
      | inr output =>
          if Version.hasGastownMarker h (Version.strings_TrimSpace h output)
          then inr (Version.strings_TrimSpace h output)
          else inl Version.cannot_locate
      | inl _ => inl Version.cannot_locate
      end
    with
    | inr root =>
        Version.hasGastownMarker h root = true /\
        ((root = Version.os_Getenv h "GT_ROOT" /\ root <> "" /\
          Version.isGitRepo h root = true) \/
         (In root (Version.candidates_of (Version.os_Getenv h "HOME")) /\
          Version.os_Getenv h "HOME" <> "" /\ Version.isGitRepo h root = true) \/
         (exists output,
            Version.git_rev_parse_show_toplevel h = inr output /\
            root = Version.strings_TrimSpace h output))
    | inl e => e = Version.cannot_locate
    end).
  { destruct (Version.git_rev_parse_show_toplevel h) as [err | output];
      [reflexivity |].
    destruct (Version.hasGastownMarker h (Version.strings_TrimSpace h output))
      eqn:Hroot; [| reflexivity].
    split; [exact Hroot | right; right; exists output; split; reflexivity]. }
  unfold Version.GetRepoRoot.
  destruct (negb (Version.os_Getenv h "GT_ROOT" =? "")%string &&
            (Version.isGitRepo h (Version.os_Getenv h "GT_ROOT") &&
             Version.hasGastownMarker h (Version.os_Getenv h "GT_ROOT")))
    eqn:Hgt.
  - apply andb_true_iff in Hgt as [Hset Hok].
    apply andb_true_iff in Hok as [Hrepo Hmark].
    apply negb_true_iff, String.eqb_neq in Hset.
    split; [exact Hmark | left; auto].
  - cbv zeta.
    destruct (String.eqb_spec (Version.os_Getenv h "HOME") "") as [Hhome | Hhome];
      simpl negb; cbv iota; [exact Htail |].
    destruct (Version.first_candidate h _) as [c |] eqn:Hc; [| exact Htail].
    destruct (first_candidate_Some h _ c Hc) as [Hin [Hrepo' Hmark']].
    split; [exact Hmark' | right; left; auto].
Qed.

(** X10.  The search order: a [GT_ROOT] that is set, is a git repository and
    has the marker wins over everything else; when [GT_ROOT] is unset or
    fails a test it is passed over without error, and with [HOME] set a
    valid [$HOME/gt/gastown] is the answer. *)
Theorem GetRepoRoot_order h :
  let gtRoot := Version.os_Getenv h "GT_ROOT" in
  let home := Version.os_Getenv h "HOME" in
  (gtRoot <> "" -> Version.isGitRepo h gtRoot = true ->
   Version.hasGastownMarker h gtRoot = true ->
   Version.GetRepoRoot h = inr gtRoot) /\
  (gtRoot = "" \/ Version.isGitRepo h gtRoot = false \/
   Version.hasGastownMarker h gtRoot = false ->
   home <> "" ->
   Version.isGitRepo h (home ++ "/gt/gastown") = true ->
   Version.hasGastownMarker h (home ++ "/gt/gastown") = true ->
   Version.GetRepoRoot h = inr (home ++ "/gt/gastown")).
Proof.
  intros gtRoot home. split.
  - intros Hset Hrepo Hmark. unfold Version.GetRepoRoot. fold gtRoot.
    apply String.eqb_neq in Hset. rewrite Hset, Hrepo, Hmark. reflexivity.
  - intros Hbad Hhome Hrepo Hmark. unfold Version.GetRepoRoot.
    fold gtRoot home.
    replace (negb (gtRoot =? "")%string &&
             (Version.isGitRepo h gtRoot && Version.hasGastownMarker h gtRoot))
      with false.
    + apply String.eqb_neq in Hhome. rewrite Hhome. simpl.
      rewrite Hrepo, Hmark. reflexivity.
    + symmetry. destruct Hbad as [-> | [Hb | Hb]].
      * reflexivity.
      * rewrite Hb. apply andb_false_r.
      * rewrite Hb, andb_false_r. apply andb_false_r.
Qed.

Lemma GetRepoRoot_order_witness :
  Version.GetRepoRoot (Version.host Version.full) = inr "/home/gus/gt/gastown".
Proof.
  apply (proj2 (GetRepoRoot_order (Version.host Version.full))).
  - left. reflexivity.
  - discriminate.
  - reflexivity.
  - reflexivity.
Defined.

(** * The counters over the life of the file *)













(** What the amended C8 leaves out.  Because [Start] never finds a witness
    alive (C3), a second foreground start on the same rig is not refused and
    two loops run at once.  Each saves the record it holds without reading
    the file: here the second loop has brought the file to 10 checks when
    the first loop's next tick writes its own 9 over it. *)
Lemma second_loop_lowers_counters :
  let first := Start (Sample.env 2000) Sample.m true [Sample.env 2030]
                     (Sample.on_disk Sample.stopped) in
  let second := Start (Sample.env 2040) Sample.m true
                      [Sample.env 2070; Sample.env 2100] (snd first) in
  exists w1 w2,
    fst first = Blocked w1 /\
    fst second = Blocked w2 /\
    option_map (fun w => TotalChecks (Stats w)) (persisted (snd second)) = Some 10 /\
    option_map (fun w => TotalChecks (Stats w))
      (persisted (snd (run_body Sample.m (Sample.env 2110) w1 (snd second)))) =
      Some 9.
Proof.
  cbv zeta. eexists. eexists. repeat split; reflexivity.
Qed.
